(** * Scan-gated conditional deployment of the Gradle command

    A shallow embedding of [artifactory/commands/gradle/gradle.go]:
    the [GradleCommand] life cycle ([init], [Run], [conditionalUpload]) and
    the derivation of the extractor configuration ([createGradleRunConfig],
    [setDeployFalse]).

    The command talks to many collaborators that live outside the file
    (configuration reader, build-info service, Xray scanner, generic upload
    command, content reader).  They are gathered in the record
    [Collaborators]; every call to one of them is appended, with its
    arguments and its answer, to a chronological trace.  Each collaborator
    receives the trace so far, so that its answer may depend on everything
    that happened before. *)

From Stdlib Require Import ZArith String Ascii List Bool Lia.
From stdpp Require Import base option list gmap strings fin_maps pretty.

Local Open Scope string_scope.
Local Open Scope Z_scope.
Local Open Scope list_scope.

(** ** Go errors *)

(** A non-nil [error] value; [option error] is Go's [error] ([None] = nil). *)
Inductive error : Type := MkError (msg : string).

Global Instance error_eq_dec : EqDecision error.
Proof. solve_decision. Defined.

(** [errorutils.CheckErrorf]: builds the error carrying the message. *)
Definition CheckErrorf (msg : string) : error := MkError msg.

(** [errorutils.CheckError]: logs and hands its argument back. *)
Definition CheckError (err : option error) : option error := err.

(** ** The [viper] key/value configuration *)

Module Viper.

(** Values a YAML build configuration can bind a key to.  [VComposite]
    stands for lists and nested maps, which have no string conversion; it
    carries their [fmt.Sprint] rendering. *)
Inductive value : Type :=
| VString (s : string)
| VBool (b : bool)
| VInt (n : Z)
| VComposite (sprint : string).

Global Instance value_eq_dec : EqDecision value.
Proof. solve_decision. Defined.

(** Keys are case-insensitive: viper lower-cases them on every access. *)
Definition lower_ascii (c : ascii) : ascii :=
  let n := nat_of_ascii c in
  if ((65 <=? n)%nat && (n <=? 90)%nat)%bool then ascii_of_nat (n + 32) else c.

Fixpoint ToLower (s : string) : string :=
  match s with
  | EmptyString => EmptyString
  | String c r => String (lower_ascii c) (ToLower r)
  end.

(** Nested sections are flattened: the entry [url] of section [deployer]
    is the binding of the dotted key [deployer.url]. *)
Abbreviation t := (gmap string value).

Definition New : t := ∅.

Definition Set_ (k : string) (v : value) (c : t) : t := <[ToLower k := v]> c.

(** Does some binding live strictly below the section [k]? *)
Definition hasNested (k : string) (c : t) : bool :=
  existsb (fun kv => String.prefix (ToLower k +:+ ".") (fst kv)) (map_to_list c).

Definition Get (k : string) (c : t) : option value :=
  match c !! ToLower k with
  | Some v => Some v
  | None => if hasNested k c then Some (VComposite "map[]") else None
  end.

Definition IsSet (k : string) (c : t) : bool :=
  match Get k c with Some _ => true | None => false end.

(** [cast.ToString]: the empty string when there is no conversion. *)
Definition ToString (v : value) : string :=
  match v with
  | VString s => s
  | VBool true => "true"
  | VBool false => "false"
  | VInt n => pretty n
  | VComposite _ => ""
  end.

Definition GetString (k : string) (c : t) : string :=
  match Get k c with Some v => ToString v | None => "" end.

(** [strconv.ParseBool], errors read as [false]. *)
Definition ParseBool (s : string) : bool :=
  bool_decide (s ∈ ["1"; "t"; "T"; "TRUE"; "true"; "True"]).

Definition ToBool (v : value) : bool :=
  match v with
  | VString s => ParseBool s
  | VBool b => b
  | VInt n => negb (n =? 0)
  | VComposite _ => false
  end.

Definition GetBool (k : string) (c : t) : bool :=
  match Get k c with Some v => ToBool v | None => false end.

(** [fmt.Sprint (v.Get k)]. *)
Definition Sprint (o : option value) : string :=
  match o with
  | None => "<nil>"
  | Some (VString s) => s
  | Some (VBool true) => "true"
  | Some (VBool false) => "false"
  | Some (VInt n) => pretty n
  | Some (VComposite r) => r
  end.

End Viper.

(** ** Data handed between the command and its collaborators

    The types of the packages the file imports, reduced to what the command
    touches; each module carries the name of its Go package. *)

Module build.
(** [build.BuildConfiguration], seen through its three coordinates. *)
Record BuildConfiguration : Type := {
  buildName : string;
  buildNumber : string;
  project : string;
}.
End build.

Module config.
Record ServerDetails : Type := {
  ServerId : string;
  ArtifactoryUrl : string;
}.
End config.

Module format.
(** [format.OutputFormat] is a string type. *)
Definition OutputFormat : Type := string.
End format.

Module spec.
(** A selection of files for one upload. *)
Record File : Type := {
  Pattern : string;
  Target : string;
}.

Record SpecFiles : Type := {
  Files : list File;
}.
End spec.

Module utils.
Record UploadConfiguration : Type := {
  Threads : Z;
}.

(** [new(utils.UploadConfiguration)]: every field zero. *)
Definition new : UploadConfiguration := {| Threads := 0 |}.

Definition withThreads (n : Z) (_ : UploadConfiguration) : UploadConfiguration :=
  {| Threads := n |}.
End utils.

Module content.
Record ContentReader : Type := {
  filesPaths : list string;
}.
End content.

Module commandsutils.
Record Result : Type := {
  successCount : Z;
  failCount : Z;
  reader : content.ContentReader;
}.

Definition Reader (r : Result) : content.ContentReader := reader r.
End commandsutils.

Module generic.
(** Modelled from the spec: the generic upload command (package [generic]
    of this repository, outside the file studied here).  The upload
    collaborator takes a file selection, the thread count, the build
    configuration and the server details, and answers pass or fail; the
    command is the builder that collects these four before the call.
    A fresh command holds none of them. *)
Record UploadCommand : Type := {
  uploadConfiguration : option utils.UploadConfiguration;
  buildConfiguration : option build.BuildConfiguration;
  spec : option spec.SpecFiles;
  serverDetails : option config.ServerDetails;
}.

Definition NewUploadCommand : UploadCommand :=
  {| uploadConfiguration := None; buildConfiguration := None;
     spec := None; serverDetails := None |}.

Definition SetUploadConfiguration (u : option utils.UploadConfiguration)
    (uc : UploadCommand) : UploadCommand :=
  {| uploadConfiguration := u; buildConfiguration := buildConfiguration uc;
     spec := spec uc; serverDetails := serverDetails uc |}.

Definition SetBuildConfiguration (b : option build.BuildConfiguration)
    (uc : UploadCommand) : UploadCommand :=
  {| uploadConfiguration := uploadConfiguration uc; buildConfiguration := b;
     spec := spec uc; serverDetails := serverDetails uc |}.

Definition SetSpec (f : option spec.SpecFiles) (uc : UploadCommand) : UploadCommand :=
  {| uploadConfiguration := uploadConfiguration uc;
     buildConfiguration := buildConfiguration uc;
     spec := f; serverDetails := serverDetails uc |}.

Definition SetServerDetails (sd : option config.ServerDetails)
    (uc : UploadCommand) : UploadCommand :=
  {| uploadConfiguration := uploadConfiguration uc;
     buildConfiguration := buildConfiguration uc;
     spec := spec uc; serverDetails := sd |}.
End generic.

(** What [SetExtractorDetails] hands to the build-info Gradle module. *)
Record ExtractorDetails : Type := {
  localPath : string;
  propsDir : string;
  extractorTasks : list string;
  useWrapperFlag : bool;
  usePluginFlag : bool;
  props : gmap string string;
}.

(** ** The command *)

Record GradleCommand : Type := {
  tasks : list string;
  configPath : string;
  configuration : option build.BuildConfiguration;
  serverDetails : option config.ServerDetails;
  threads : Z;
  detailedSummary : bool;
  xrayScan : bool;
  scanOutputFormat : format.OutputFormat;
  result : option commandsutils.Result;
  deploymentDisabled : bool;
  (* File path for Gradle extractor in which all build's artifacts details
     will be listed at the end of the build. *)
  buildArtifactsDetailsFile : string;
}.

Definition NewGradleCommand : GradleCommand :=
  {| tasks := []; configPath := ""; configuration := None;
     serverDetails := None; threads := 0; detailedSummary := false;
     xrayScan := false; scanOutputFormat := ""; result := None;
     deploymentDisabled := false; buildArtifactsDetailsFile := "" |}.

Definition SetServerDetails (sd : option config.ServerDetails) (gc : GradleCommand) : GradleCommand :=
  {| tasks := tasks gc; configPath := configPath gc; configuration := configuration gc;
     serverDetails := sd; threads := threads gc; detailedSummary := detailedSummary gc;
     xrayScan := xrayScan gc; scanOutputFormat := scanOutputFormat gc; result := result gc;
     deploymentDisabled := deploymentDisabled gc;
     buildArtifactsDetailsFile := buildArtifactsDetailsFile gc |}.

Definition SetConfiguration (c : option build.BuildConfiguration) (gc : GradleCommand) : GradleCommand :=
  {| tasks := tasks gc; configPath := configPath gc; configuration := c;
     serverDetails := serverDetails gc; threads := threads gc; detailedSummary := detailedSummary gc;
     xrayScan := xrayScan gc; scanOutputFormat := scanOutputFormat gc; result := result gc;
     deploymentDisabled := deploymentDisabled gc;
     buildArtifactsDetailsFile := buildArtifactsDetailsFile gc |}.

Definition SetConfigPath (p : string) (gc : GradleCommand) : GradleCommand :=
  {| tasks := tasks gc; configPath := p; configuration := configuration gc;
     serverDetails := serverDetails gc; threads := threads gc; detailedSummary := detailedSummary gc;
     xrayScan := xrayScan gc; scanOutputFormat := scanOutputFormat gc; result := result gc;
     deploymentDisabled := deploymentDisabled gc;
     buildArtifactsDetailsFile := buildArtifactsDetailsFile gc |}.

Definition SetTasks (ts : list string) (gc : GradleCommand) : GradleCommand :=
  {| tasks := ts; configPath := configPath gc; configuration := configuration gc;
     serverDetails := serverDetails gc; threads := threads gc; detailedSummary := detailedSummary gc;
     xrayScan := xrayScan gc; scanOutputFormat := scanOutputFormat gc; result := result gc;
     deploymentDisabled := deploymentDisabled gc;
     buildArtifactsDetailsFile := buildArtifactsDetailsFile gc |}.

Definition SetThreads (n : Z) (gc : GradleCommand) : GradleCommand :=
  {| tasks := tasks gc; configPath := configPath gc; configuration := configuration gc;
     serverDetails := serverDetails gc; threads := n; detailedSummary := detailedSummary gc;
     xrayScan := xrayScan gc; scanOutputFormat := scanOutputFormat gc; result := result gc;
     deploymentDisabled := deploymentDisabled gc;
     buildArtifactsDetailsFile := buildArtifactsDetailsFile gc |}.

Definition SetDetailedSummary (b : bool) (gc : GradleCommand) : GradleCommand :=
  {| tasks := tasks gc; configPath := configPath gc; configuration := configuration gc;
     serverDetails := serverDetails gc; threads := threads gc; detailedSummary := b;
     xrayScan := xrayScan gc; scanOutputFormat := scanOutputFormat gc; result := result gc;
     deploymentDisabled := deploymentDisabled gc;
     buildArtifactsDetailsFile := buildArtifactsDetailsFile gc |}.

Definition IsDetailedSummary (gc : GradleCommand) : bool := detailedSummary gc.

Definition SetXrayScan (b : bool) (gc : GradleCommand) : GradleCommand :=
  {| tasks := tasks gc; configPath := configPath gc; configuration := configuration gc;
     serverDetails := serverDetails gc; threads := threads gc; detailedSummary := detailedSummary gc;
     xrayScan := b; scanOutputFormat := scanOutputFormat gc; result := result gc;
     deploymentDisabled := deploymentDisabled gc;
     buildArtifactsDetailsFile := buildArtifactsDetailsFile gc |}.

Definition IsXrayScan (gc : GradleCommand) : bool := xrayScan gc.

Definition SetScanOutputFormat (f : format.OutputFormat) (gc : GradleCommand) : GradleCommand :=
  {| tasks := tasks gc; configPath := configPath gc; configuration := configuration gc;
     serverDetails := serverDetails gc; threads := threads gc; detailedSummary := detailedSummary gc;
     xrayScan := xrayScan gc; scanOutputFormat := f; result := result gc;
     deploymentDisabled := deploymentDisabled gc;
     buildArtifactsDetailsFile := buildArtifactsDetailsFile gc |}.

Definition setResult (r : option commandsutils.Result) (gc : GradleCommand) : GradleCommand :=
  {| tasks := tasks gc; configPath := configPath gc; configuration := configuration gc;
     serverDetails := serverDetails gc; threads := threads gc; detailedSummary := detailedSummary gc;
     xrayScan := xrayScan gc; scanOutputFormat := scanOutputFormat gc; result := r;
     deploymentDisabled := deploymentDisabled gc;
     buildArtifactsDetailsFile := buildArtifactsDetailsFile gc |}.

(** The two private fields [init] assigns. *)
Definition setDeploymentDisabled (b : bool) (gc : GradleCommand) : GradleCommand :=
  {| tasks := tasks gc; configPath := configPath gc; configuration := configuration gc;
     serverDetails := serverDetails gc; threads := threads gc; detailedSummary := detailedSummary gc;
     xrayScan := xrayScan gc; scanOutputFormat := scanOutputFormat gc; result := result gc;
     deploymentDisabled := b;
     buildArtifactsDetailsFile := buildArtifactsDetailsFile gc |}.

Definition setBuildArtifactsDetailsFile (f : string) (gc : GradleCommand) : GradleCommand :=
  {| tasks := tasks gc; configPath := configPath gc; configuration := configuration gc;
     serverDetails := serverDetails gc; threads := threads gc; detailedSummary := detailedSummary gc;
     xrayScan := xrayScan gc; scanOutputFormat := scanOutputFormat gc; result := result gc;
     deploymentDisabled := deploymentDisabled gc;
     buildArtifactsDetailsFile := f |}.

(** Gradle extractor generates the details of the build's artifacts.
    This is required for Xray scan and for the detailed summary. *)
Definition shouldCreateBuildArtifactsFile (gc : GradleCommand) : bool :=
  (IsDetailedSummary gc && negb (deploymentDisabled gc)) || IsXrayScan gc.

(** ** Collaborators and the trace of their calls *)

(** Go's [(T, error)] results: the value, or the non-nil error. *)
Definition orError (A : Type) : Type := (A + error)%type.

(** The two places of [conditionalUpload] that run an upload command:
    "First upload binaries", "Then Upload pom.xml's". *)
Inductive uploadSite : Type := UploadBinaries | UploadPoms.

Global Instance uploadSite_eq_dec : EqDecision uploadSite.
Proof. solve_decision. Defined.

(** One entry per call that leaves the file; arguments first, answer last. *)
Inductive event : Type :=
| EvReadConfigFile (path : string) (res : orError Viper.t)
| EvGetServerDetails (vConfig : Viper.t)
    (res : option config.ServerDetails * option error)
| EvCreateTempFile (res : orError string)
| EvCloseTempFile (name : string) (err : option error)
| EvGetBuildName (c : option build.BuildConfiguration) (res : orError string)
| EvGetBuildNumber (c : option build.BuildConfiguration) (res : orError string)
| EvGetOrCreateBuildWithProject (name number proj : string) (err : option error)
| EvAddGradleModule (err : option error)
| EvCreateBuildInfoProps (deployableArtifactsFile : string) (vConfig : Viper.t)
    (res : Viper.t * orError (gmap string string))
| EvGetJfrogDependenciesPath (res : orError string)
| EvCalcDependencies (details : ExtractorDetails) (err : option error)
| EvUnmarshalDeployableArtifacts (filesPath cfgPath : string) (lateDeploy : bool)
    (res : orError commandsutils.Result)
| EvScanDeployableArtifacts (r : option commandsutils.Result)
    (sd : option config.ServerDetails) (nthreads : Z) (fmt : format.OutputFormat)
    (res : option spec.SpecFiles * option spec.SpecFiles * option error)
| EvReaderClose (r : content.ContentReader) (err : option error)
| EvReaderReset (r : content.ContentReader)
| EvUploadRun (site : uploadSite) (uc : generic.UploadCommand) (err : option error).

Abbreviation history := (list event).

(** Everything the file imports and calls.  The string constants of package
    [build] are fields too: their values are fixed outside the file.  Every
    effectful collaborator sees the history of the calls made so far. *)
Record Collaborators : Type := {
  (* constants of package build *)
  DeployerPrefix : string;
  DeployArtifacts : string;
  Url : string;
  Repo : string;
  ForkCount : string;
  DeployableArtifacts : string;
  PropertiesTempPath : string;
  (* project, build *)
  ReadConfigFile : history -> string -> orError Viper.t;
  GetServerDetails : history -> Viper.t -> option config.ServerDetails * option error;
  GetBuildName : history -> option build.BuildConfiguration -> orError string;
  GetBuildNumber : history -> option build.BuildConfiguration -> orError string;
  GetProject : option build.BuildConfiguration -> string;
  GetOrCreateBuildWithProject : history -> string -> string -> string -> option error;
  AddGradleModule : history -> option error;
  (* the callee may write into the configuration it is handed *)
  CreateBuildInfoProps :
    history -> string -> Viper.t -> Viper.t * orError (gmap string string);
  CalcDependencies : history -> ExtractorDetails -> option error;
  (* fileutils, ioutils, filepath, coreutils, config *)
  CreateTempFile : history -> orError string;
  CloseTempFile : history -> string -> option error;
  DoubleWinPathSeparator : string -> string;
  Join : string -> string -> string;
  GetCliPersistentTempDirPath : history -> string;
  GetJfrogDependenciesPath : history -> orError string;
  ConvertExitCodeError : option error -> option error;
  (* commandsutils, content *)
  UnmarshalDeployableArtifacts :
    history -> string -> string -> bool -> orError commandsutils.Result;
  ScanDeployableArtifacts :
    history -> option commandsutils.Result -> option config.ServerDetails -> Z ->
    format.OutputFormat -> option spec.SpecFiles * option spec.SpecFiles * option error;
  ReaderClose : history -> content.ContentReader -> option error;
  (* generic *)
  UploadRun : history -> generic.UploadCommand -> option error;
}.

(** ** The monad the command runs in

    A computation reads and updates the receiver [gc], sees the history and
    reports the events it adds.  It returns normally, returns a Go error, or
    panics; the fields written and the events emitted before an error or a
    panic stay. *)

Inductive outcome (A : Type) : Type :=
| Ok (a : A)
| Err (e : error)
| Panic (msg : string).

Arguments Ok {A} a.
Arguments Err {A} e.
Arguments Panic {A} msg.

Definition M (A : Type) : Type :=
  GradleCommand -> history -> outcome A * GradleCommand * list event.

Definition ret {A} (a : A) : M A := fun gc _ => (Ok a, gc, []).

Definition bind {A B} (m : M A) (k : A -> M B) : M B :=
  fun gc h =>
    match m gc h with
    | (Ok a, gc1, evs1) =>
        match k a gc1 (h ++ evs1) with
        | (o, gc2, evs2) => (o, gc2, evs1 ++ evs2)
        end
    | (Err e, gc1, evs1) => (Err e, gc1, evs1)
    | (Panic msg, gc1, evs1) => (Panic msg, gc1, evs1)
    end.

Definition throw {A} (e : error) : M A := fun gc _ => (Err e, gc, []).

Definition panic {A} (msg : string) : M A := fun gc _ => (Panic msg, gc, []).

Definition this : M GradleCommand := fun gc _ => (Ok gc, gc, []).

Definition assign (f : GradleCommand -> GradleCommand) : M unit :=
  fun gc _ => (Ok tt, f gc, []).

(** Call a collaborator and log the call. *)
Definition call {A} (ask : history -> A) (log : A -> event) : M A :=
  fun gc h => let a := ask h in (Ok a, gc, [log a]).

(** Consult a collaborator that has no effect of its own. *)
Definition peek {A} (ask : history -> A) : M A :=
  fun gc h => (Ok (ask h), gc, []).

(** [if err != nil { return err }]. *)
Definition check (err : option error) : M unit :=
  match err with
  | Some e => throw e
  | None => ret tt
  end.

(** [v, err := f(); if err != nil { return err }]. *)
Definition try {A} (r : orError A) : M A :=
  match r with
  | inl a => ret a
  | inr e => throw e
  end.

Declare Scope go_scope.
Delimit Scope go_scope with go.
Notation "x <- m ;; k" := (bind m (fun x => k))
  (at level 100, m at next level, right associativity) : go_scope.
Notation "m ;;; k" := (bind m (fun _ => k))
  (at level 100, right associativity) : go_scope.
Local Open Scope go_scope.

Definition nilDereference : string :=
  "invalid memory address or nil pointer dereference".

Definition usePlugin : string := "useplugin".
Definition useWrapper : string := "usewrapper".

(** ** The functions of [gradle.go] *)

Section Gradle.

Variable W : Collaborators.

(** Returns the ServerDetails. The information returns from the config
    file provided. *)
Definition ServerDetails : M (option config.ServerDetails) :=
  gc <- this ;;
  match serverDetails gc with
  | None =>
      r <- call (fun h => ReadConfigFile W h (configPath gc))
                (EvReadConfigFile (configPath gc)) ;;
      vConfig <- try r ;;
      r <- call (fun h => GetServerDetails W h vConfig) (EvGetServerDetails vConfig) ;;
      let '(details, err) := r in
      assign (SetServerDetails details) ;;;
      check err ;;;
      gc <- this ;;
      ret (serverDetails gc)
  | Some _ => ret (serverDetails gc)
  end.

Definition init : M Viper.t :=
  gc <- this ;;
  (* Read config *)
  r <- call (fun h => ReadConfigFile W h (configPath gc))
            (EvReadConfigFile (configPath gc)) ;;
  vConfig <- try r ;;
  if IsXrayScan gc && negb (Viper.IsSet "deployer" vConfig) then
    throw (CheckErrorf
             "Conditional upload can only be performed if deployer is set in the config")
  else
    (* Gradle's extractor deploy build artifacts. This should be disabled
       since there is no intent to deploy anything or deploy upon Xray scan
       results. *)
    assign (setDeploymentDisabled
              (IsXrayScan gc || negb (Viper.IsSet "deployer" vConfig))) ;;;
    gc <- this ;;
    if shouldCreateBuildArtifactsFile gc then
      (* Created a file that will contain all the details about the build's
         artifacts *)
      r <- call (CreateTempFile W) EvCreateTempFile ;;
      tempFile <- try r ;;
      assign (setBuildArtifactsDetailsFile (DoubleWinPathSeparator W tempFile)) ;;;
      err <- call (fun h => CloseTempFile W h tempFile) (EvCloseTempFile tempFile) ;;
      check (CheckError err) ;;;
      ret vConfig
    else
      ret vConfig.

Definition setDeployFalse (vConfig : Viper.t) : Viper.t :=
  let vConfig :=
    Viper.Set_ (DeployerPrefix W +:+ DeployArtifacts W) (Viper.VString "false") vConfig in
  let vConfig :=
    if String.eqb (Viper.GetString (DeployerPrefix W +:+ Url W) vConfig) "" then
      Viper.Set_ (DeployerPrefix W +:+ Url W) (Viper.VString "http://empty_url") vConfig
    else vConfig in
  if String.eqb (Viper.GetString (DeployerPrefix W +:+ Repo W) vConfig) "" then
    Viper.Set_ (DeployerPrefix W +:+ Repo W) (Viper.VString "empty_repo") vConfig
  else vConfig.

(** The configuration as [createGradleRunConfig] hands it to
    [build.CreateBuildInfoProps]. *)
Definition overrides (vConfig : Viper.t) (nthreads : Z) (disableDeploy : bool) : Viper.t :=
  let vConfig :=
    if 0 <? nthreads then Viper.Set_ (ForkCount W) (Viper.VInt nthreads) vConfig
    else vConfig in
  if disableDeploy then setDeployFalse vConfig else vConfig.

Definition createGradleRunConfig (vConfig : Viper.t) (deployableArtifactsFile : string)
    (nthreads : Z) (disableDeploy : bool) : M (gmap string string * bool * bool) :=
  let wrapper := Viper.GetBool useWrapper vConfig in
  let vConfig := overrides vConfig nthreads disableDeploy in
  r <- call (fun h => CreateBuildInfoProps W h deployableArtifactsFile vConfig)
            (EvCreateBuildInfoProps deployableArtifactsFile vConfig) ;;
  let '(vConfig, r) := r in
  props <- try r ;;
  let props :=
    if negb (String.eqb deployableArtifactsFile "") then
      (* Save the path to a temp file, where buildinfo project will write
         the deployable artifacts details. *)
      <[DeployableArtifacts W :=
          Viper.Sprint (Viper.Get (DeployableArtifacts W) vConfig)]> props
    else props in
  let plugin := Viper.GetBool usePlugin vConfig in
  ret (props, wrapper, plugin).

Definition getGradleDependencyLocalPath : M string :=
  r <- call (GetJfrogDependenciesPath W) EvGetJfrogDependenciesPath ;;
  dependenciesPath <- try r ;;
  ret (Join W dependenciesPath "gradle").

Definition runGradle (vConfig : Viper.t) (ts : list string)
    (deployableArtifactsFile : string) (conf : option build.BuildConfiguration)
    (nthreads : Z) (disableDeploy : bool) : M unit :=
  r <- call (fun h => GetBuildName W h conf) (EvGetBuildName conf) ;;
  name <- try r ;;
  r <- call (fun h => GetBuildNumber W h conf) (EvGetBuildNumber conf) ;;
  number <- try r ;;
  err <- call (fun h => GetOrCreateBuildWithProject W h name number (GetProject W conf))
              (EvGetOrCreateBuildWithProject name number (GetProject W conf)) ;;
  check (CheckError err) ;;;
  err <- call (AddGradleModule W) EvAddGradleModule ;;
  check (CheckError err) ;;;
  cfg <- createGradleRunConfig vConfig deployableArtifactsFile nthreads disableDeploy ;;
  dependencyLocalPath <- getGradleDependencyLocalPath ;;
  tmp <- peek (GetCliPersistentTempDirPath W) ;;
  let details :=
    {| localPath := dependencyLocalPath;
       propsDir := Join W tmp (PropertiesTempPath W);
       extractorTasks := ts;
       useWrapperFlag := snd (fst cfg);
       usePluginFlag := snd cfg;
       props := fst (fst cfg) |} in
  err <- call (fun h => CalcDependencies W h details) (EvCalcDependencies details) ;;
  check (ConvertExitCodeError W err).

Definition unmarshalDeployableArtifacts (filesPath : string) : M unit :=
  gc <- this ;;
  r <- call (fun h => UnmarshalDeployableArtifacts W h filesPath (configPath gc) (IsXrayScan gc))
            (EvUnmarshalDeployableArtifacts filesPath (configPath gc) (IsXrayScan gc)) ;;
  res <- try r ;;
  assign (setResult (Some res)).

(** [gc.result.Reader()]: the reader of the result the command holds. *)
Definition resultReader : M content.ContentReader :=
  gc <- this ;;
  match result gc with
  | Some r => ret (commandsutils.Reader r)
  | None => panic nilDereference
  end.

(** ConditionalUpload will scan the artifact using Xray and will upload
    them only if the scan passes with no violation. *)
Definition conditionalUpload : M unit :=
  (* Initialize the server details (from config) if it hasn't been
     initialized yet. *)
  ServerDetails ;;;
  gc <- this ;;
  scan <- call (fun h => ScanDeployableArtifacts W h (result gc) (serverDetails gc)
                           (threads gc) (scanOutputFormat gc))
               (EvScanDeployableArtifacts (result gc) (serverDetails gc)
                  (threads gc) (scanOutputFormat gc)) ;;
  let '(binariesSpecFile, pomSpecFile, err) := scan in
  (* If the detailed summary wasn't requested, the reader should be closed
     here. (otherwise it will be closed by the detailed summary print
     method) *)
  (if negb (detailedSummary gc) then
     rd <- resultReader ;;
     e <- call (fun h => ReaderClose W h rd) (EvReaderClose rd) ;;
     check e
   else
     rd <- resultReader ;;
     call (fun _ => tt) (fun _ => EvReaderReset rd)) ;;;
  check err ;;;
  (* The case scan failed *)
  match binariesSpecFile with
  | None => ret tt
  | Some binaries =>
      (* First upload binaries *)
      (if (0 <? length (spec.Files binaries))%nat then
         let uploadConfiguration := utils.withThreads (threads gc) utils.new in
         let uploadCmd :=
           generic.SetServerDetails (serverDetails gc)
             (generic.SetSpec (Some binaries)
                (generic.SetBuildConfiguration (configuration gc)
                   (generic.SetUploadConfiguration (Some uploadConfiguration)
                      generic.NewUploadCommand))) in
         err <- call (fun h => UploadRun W h uploadCmd)
                     (EvUploadRun UploadBinaries uploadCmd) ;;
         check err
       else ret tt) ;;;
      match pomSpecFile with
      | None => panic nilDereference
      | Some poms =>
          if (0 <? length (spec.Files poms))%nat then
            (* Then Upload pom.xml's *)
            let uploadCmd :=
              generic.SetServerDetails (serverDetails gc)
                (generic.SetSpec (Some poms)
                   (generic.SetBuildConfiguration (configuration gc)
                      generic.NewUploadCommand)) in
            err <- call (fun h => UploadRun W h uploadCmd)
                        (EvUploadRun UploadPoms uploadCmd) ;;
            check err
          else ret tt
      end
  end.

Definition Run : M unit :=
  vConfig <- init ;;
  gc <- this ;;
  runGradle vConfig (tasks gc) (buildArtifactsDetailsFile gc) (configuration gc)
    (threads gc) (IsXrayScan gc) ;;;
  gc <- this ;;
  if negb (String.eqb (buildArtifactsDetailsFile gc) "") then
    unmarshalDeployableArtifacts (buildArtifactsDetailsFile gc) ;;;
    if IsXrayScan gc then conditionalUpload else ret tt
  else ret tt.

End Gradle.

(** ** Observing a run *)

Definition outcomeOf {A} (m : M A) (gc : GradleCommand) (h : history) : outcome A :=
  fst (fst (m gc h)).

Definition commandAfter {A} (m : M A) (gc : GradleCommand) (h : history) : GradleCommand :=
  snd (fst (m gc h)).

Definition eventsOf {A} (m : M A) (gc : GradleCommand) (h : history) : list event :=
  snd (m gc h).

(** The upload calls of a trace, in the order they were issued. *)
Fixpoint uploads (evs : list event) : list (uploadSite * generic.UploadCommand * option error) :=
  match evs with
  | [] => []
  | EvUploadRun site uc err :: r => (site, uc, err) :: uploads r
  | _ :: r => uploads r
  end.

(** The terminal operations invoked on a content reader. *)
Inductive disposal : Type := Close | Reset.

Fixpoint disposals (evs : list event) : list (disposal * content.ContentReader) :=
  match evs with
  | [] => []
  | EvReaderClose rd _ :: r => (Close, rd) :: disposals r
  | EvReaderReset rd :: r => (Reset, rd) :: disposals r
  | _ :: r => disposals r
  end.

Definition isScan (e : event) : bool :=
  match e with EvScanDeployableArtifacts _ _ _ _ _ => true | _ => false end.

Definition isCreateTempFile (e : event) : bool :=
  match e with EvCreateTempFile _ => true | _ => false end.

Definition isUnmarshal (e : event) : bool :=
  match e with EvUnmarshalDeployableArtifacts _ _ _ _ => true | _ => false end.

Definition isUpload (e : event) : bool :=
  match e with EvUploadRun _ _ _ => true | _ => false end.

(** The configurations handed to [build.CreateBuildInfoProps]. *)
Fixpoint handedConfigs (evs : list event) : list Viper.t :=
  match evs with
  | [] => []
  | EvCreateBuildInfoProps _ cfg _ :: r => cfg :: handedConfigs r
  | _ :: r => handedConfigs r
  end.

(** The calls [runGradle] makes. *)
Definition isBuildEvent (e : event) : bool :=
  match e with
  | EvGetBuildName _ _ | EvGetBuildNumber _ _ | EvGetOrCreateBuildWithProject _ _ _ _
  | EvAddGradleModule _ | EvCreateBuildInfoProps _ _ _ | EvGetJfrogDependenciesPath _
  | EvCalcDependencies _ _ => true
  | _ => false
  end.

(** The calls [conditionalUpload] makes. *)
Definition isGateEvent (e : event) : bool :=
  match e with
  | EvReadConfigFile _ _ | EvGetServerDetails _ _ | EvScanDeployableArtifacts _ _ _ _ _
  | EvReaderClose _ _ | EvReaderReset _ | EvUploadRun _ _ _ => true
  | _ => false
  end.

(** The error [init] raises when a scan is requested without a deployer. *)
Definition configError : error :=
  CheckErrorf "Conditional upload can only be performed if deployer is set in the config".

(** The keys [setDeployFalse] writes. *)
Definition artifactsKey (W : Collaborators) : string :=
  DeployerPrefix W +:+ DeployArtifacts W.

Definition urlKey (W : Collaborators) : string := DeployerPrefix W +:+ Url W.

Definition repoKey (W : Collaborators) : string := DeployerPrefix W +:+ Repo W.

(** The three deployer keys [setDeployFalse] writes and the fork-count key
    are four different keys of the configuration. *)
Definition keysDistinct (W : Collaborators) : Prop :=
  NoDup [Viper.ToLower (artifactsKey W);
         Viper.ToLower (urlKey W);
         Viper.ToLower (repoKey W);
         Viper.ToLower (ForkCount W)].

(** ** Sample collaborators, for concrete runs *)

Definition sampleResult : commandsutils.Result :=
  {| commandsutils.successCount := 3; commandsutils.failCount := 0;
     commandsutils.reader := {| content.filesPaths := ["/tmp/jfrog.cli.temp.-1"] |} |}.

Definition sampleServer : config.ServerDetails :=
  {| config.ServerId := "art"; config.ArtifactoryUrl := "https://acme.jfrog.io/artifactory/" |}.

Definition sampleBuild : build.BuildConfiguration :=
  {| build.buildName := "app"; build.buildNumber := "17"; build.project := "" |}.

(** A world in which every collaborator succeeds, except as the four
    arguments say: what the configuration file holds, what the scanner
    answers, how closing the reader ends, and how each upload ends. *)
Definition sampleWorld (cfg : orError Viper.t)
    (verdict : option spec.SpecFiles * option spec.SpecFiles * option error)
    (closeErr : option error)
    (uploadErr : generic.UploadCommand -> option error) : Collaborators :=
  {| DeployerPrefix := "deployer.";
     DeployArtifacts := "deployArtifacts";
     Url := "url";
     Repo := "repo";
     ForkCount := "forkCount";
     DeployableArtifacts := "deployable.artifacts.map";
     PropertiesTempPath := "jfrog/properties/";
     ReadConfigFile := fun _ _ => cfg;
     GetServerDetails := fun _ _ => (Some sampleServer, None);
     GetBuildName := fun _ _ => inl "app";
     GetBuildNumber := fun _ _ => inl "17";
     GetProject := fun _ => "";
     GetOrCreateBuildWithProject := fun _ _ _ _ => None;
     AddGradleModule := fun _ => None;
     CreateBuildInfoProps := fun _ file v =>
       (if String.eqb file "" then v
        else Viper.Set_ "deployable.artifacts.map" (Viper.VString file) v, inl ∅);
     CalcDependencies := fun _ _ => None;
     CreateTempFile := fun _ => inl "/tmp/jfrog.cli.temp.-1";
     CloseTempFile := fun _ _ => None;
     DoubleWinPathSeparator := fun p => p;
     Join := fun a b => a +:+ "/" +:+ b;
     GetCliPersistentTempDirPath := fun _ => "/tmp/jfrog";
     GetJfrogDependenciesPath := fun _ => inl "/home/user/.jfrog/dependencies";
     ConvertExitCodeError := fun e => e;
     UnmarshalDeployableArtifacts := fun _ _ _ _ => inl sampleResult;
     ScanDeployableArtifacts := fun _ _ _ _ _ => verdict;
     ReaderClose := fun _ _ => closeErr;
     UploadRun := fun _ uc => uploadErr uc |}.

Definition jar (n : string) : spec.File :=
  {| spec.Pattern := "build/libs/" +:+ n +:+ ".jar"; spec.Target := "libs-release-local/" |}.

Definition pom (n : string) : spec.File :=
  {| spec.Pattern := "build/publications/" +:+ n +:+ "/pom-default.xml";
     spec.Target := "libs-release-local/" |}.

Definition threeJars : spec.SpecFiles := {| spec.Files := [jar "a"; jar "b"; jar "c"] |}.
Definition twoPoms : spec.SpecFiles := {| spec.Files := [pom "a"; pom "b"] |}.
Definition noFiles : spec.SpecFiles := {| spec.Files := [] |}.

(** A configuration with a deployer section, and one without. *)
Definition withDeployer : Viper.t :=
  Viper.Set_ "deployer.repo" (Viper.VString "libs-release-local")
    (Viper.Set_ "deployer.serverId" (Viper.VString "art")
       (Viper.Set_ "type" (Viper.VString "gradle") Viper.New)).

Definition withoutDeployer : Viper.t :=
  Viper.Set_ "resolver.repo" (Viper.VString "libs-release")
    (Viper.Set_ "type" (Viper.VString "gradle") Viper.New).

(** A deployer section whose URL is set, to the empty string. *)
Definition withEmptyUrl : Viper.t :=
  Viper.Set_ "deployer.url" (Viper.VString "") withDeployer.

(** A command as the CLI builds it: fresh, then configured by the setters. *)
Definition scanCommand (summary : bool) : GradleCommand :=
  SetDetailedSummary summary
    (SetXrayScan true
       (SetThreads 8
          (SetConfiguration (Some sampleBuild)
             (SetConfigPath ".jfrog/projects/gradle.yaml"
                (SetTasks ["clean"; "artifactoryPublish"] NewGradleCommand))))).

(** A command for a plain build, without a scan. *)
Definition buildCommand (summary : bool) : GradleCommand :=
  SetXrayScan false (scanCommand summary).

(** The same command at the moment [Run] enters [conditionalUpload]. *)
Definition scanCommandWithResult (summary : bool) : GradleCommand :=
  setResult (Some sampleResult) (scanCommand summary).

Definition allUploadsPass : generic.UploadCommand -> option error := fun _ => None.

Definition closeFailed : error := MkError "close /tmp/jfrog.cli.temp.-1: file already closed".
Definition scanFailed : error := MkError "xray: scan request failed".
Definition uploadFailed : error := MkError "upload: 403 Forbidden".

(** ** More ways to look at a run *)

(** The calls [init] makes. *)
Definition isInitEvent (e : event) : bool :=
  match e with
  | EvReadConfigFile _ _ | EvCreateTempFile _ | EvCloseTempFile _ _ => true
  | _ => false
  end.

(** Calls that neither scan, nor dispose of the reader, nor upload. *)
Definition isQuiet (e : event) : bool :=
  match e with
  | EvScanDeployableArtifacts _ _ _ _ _ | EvReaderClose _ _ | EvReaderReset _
  | EvUploadRun _ _ _ => false
  | _ => true
  end.

(** The name of the temporary file a trace created, if it created one. *)
Fixpoint createdTempFile (evs : list event) : option string :=
  match evs with
  | [] => None
  | EvCreateTempFile (inl name) :: _ => Some name
  | _ :: r => createdTempFile r
  end.

(** The fields the caller sets through the exported setters, the server
    details apart. *)
Definition sameSettings (gc gc' : GradleCommand) : Prop :=
  tasks gc' = tasks gc /\ configPath gc' = configPath gc
  /\ configuration gc' = configuration gc /\ threads gc' = threads gc
  /\ detailedSummary gc' = detailedSummary gc /\ xrayScan gc' = xrayScan gc
  /\ scanOutputFormat gc' = scanOutputFormat gc.

Definition CommandName (gc : GradleCommand) : string := "rt_gradle".

(** A world that answers as [W] does, except for the extractor, the
    unmarshalling and the lookup of the server details. *)
Definition answering (calc : option error) (unmarshal : orError commandsutils.Result)
    (details : option config.ServerDetails * option error) (W : Collaborators)
    : Collaborators :=
  {| DeployerPrefix := DeployerPrefix W;
     DeployArtifacts := DeployArtifacts W;
     Url := Url W;
     Repo := Repo W;
     ForkCount := ForkCount W;
     DeployableArtifacts := DeployableArtifacts W;
     PropertiesTempPath := PropertiesTempPath W;
     ReadConfigFile := ReadConfigFile W;
     GetServerDetails := fun _ _ => details;
     GetBuildName := GetBuildName W;
     GetBuildNumber := GetBuildNumber W;
     GetProject := GetProject W;
     GetOrCreateBuildWithProject := GetOrCreateBuildWithProject W;
     AddGradleModule := AddGradleModule W;
     CreateBuildInfoProps := CreateBuildInfoProps W;
     CalcDependencies := fun _ _ => calc;
     CreateTempFile := CreateTempFile W;
     CloseTempFile := CloseTempFile W;
     DoubleWinPathSeparator := DoubleWinPathSeparator W;
     Join := Join W;
     GetCliPersistentTempDirPath := GetCliPersistentTempDirPath W;
     GetJfrogDependenciesPath := GetJfrogDependenciesPath W;
     ConvertExitCodeError := ConvertExitCodeError W;
     UnmarshalDeployableArtifacts := fun _ _ _ _ => unmarshal;
     ScanDeployableArtifacts := ScanDeployableArtifacts W;
     ReaderClose := ReaderClose W;
     UploadRun := UploadRun W |}.

Definition unmarshalFailed : error := MkError "unexpected end of JSON input".
Definition buildFailed : error := MkError "exit status 1".
Definition lookupFailed : error := MkError "Server ID 'art' does not exist.".

(** ** The Gradle init script *)

Definition UserHomeEnv : string := "GRADLE_USER_HOME".
Definition InitScriptName : string := "jfrog.init.gradle".

(** [strings.HasSuffix] and [strings.TrimSuffix], on byte strings. *)
Definition HasSuffix (s suffix : string) : bool :=
  (String.length suffix <=? String.length s)%nat
  && String.eqb
       (substring (String.length s - String.length suffix) (String.length suffix) s)
       suffix.

Definition TrimSuffix (s suffix : string) : string :=
  if HasSuffix s suffix
  then substring 0 (String.length s - String.length suffix) s
  else s.

(** [fmt.Errorf (prefix ++ "%s", err)] and [fmt.Errorf (prefix ++ "%w", err)]:
    the message of [err] after the prefix. *)
Definition Errorf (prefix : string) (err : error) : error :=
  match err with MkError msg => MkError (prefix +:+ msg) end.

Record InitScriptAuthConfig : Type := {
  ArtifactoryURL : string;
  GradleRepoName : string;
  ArtifactoryUsername : string;
  ArtifactoryAccessToken : string;
}.

(** The two calls that write to the file system, with the permission bits
    they pass. *)
Inductive fsEvent : Type :=
| FsMkdirAll (dir : string) (perm : N) (err : option error)
| FsWriteFile (path content : string) (perm : N) (err : option error).

(** What the init-script functions import and call.  A parsed template is
    the function that executes it; the environment and the file system see
    the file-system calls made so far. *)
Record ScriptWorld : Type := {
  gradleInitScript : string;
  templateParse : string -> orError (InitScriptAuthConfig -> orError string);
  Getenv : list fsEvent -> string -> string;
  GetUserHomeDir : list fsEvent -> string;
  filepathJoin : list string -> string;
  MkdirAll : list fsEvent -> string -> N -> option error;
  WriteFile : list fsEvent -> string -> string -> N -> option error;
  (* getters of config.ServerDetails *)
  GetUser : config.ServerDetails -> string;
  GetPassword : config.ServerDetails -> string;
  GetAccessToken : config.ServerDetails -> string;
  GetArtifactoryUrl : config.ServerDetails -> string;
}.

Section InitScript.

Variable SW : ScriptWorld.

(** GenerateInitScript generates a Gradle init script with the provided
    authentication configuration. *)
Definition GenerateInitScript (config : InitScriptAuthConfig) : orError string :=
  match templateParse SW (gradleInitScript SW) with
  | inr err => inr (Errorf "failed to parse Gradle init script template: " err)
  | inl tmpl =>
      (* Remove possible trailing slashes from the Artifactory URL to avoid
         double slashes in the generated script *)
      let config :=
        {| ArtifactoryURL := TrimSuffix (ArtifactoryURL config) "/";
           GradleRepoName := GradleRepoName config;
           ArtifactoryUsername := ArtifactoryUsername config;
           ArtifactoryAccessToken := ArtifactoryAccessToken config |} in
      (* Create a string from the template with the provided configuration *)
      match tmpl config with
      | inr err =>
          inr (Errorf
                 "failed to write auth configuration into the init script template: " err)
      | inl result => inl result
      end
  end.

(** [$GRADLE_USER_HOME], or [~/.gradle] when it is empty. *)
Definition gradleHomeAt (h : list fsEvent) : string :=
  let gradleHome := Getenv SW h UserHomeEnv in
  if String.eqb gradleHome "" then filepathJoin SW [GetUserHomeDir SW h; ".gradle"]
  else gradleHome.

(** WriteInitScript writes the Gradle init script to the Gradle user home
    [init.d] directory. *)
Definition WriteInitScript (initScript : string) (h : list fsEvent)
    : option error * list fsEvent :=
  let gradleHome := gradleHomeAt h in
  let initScriptsDir := filepathJoin SW [gradleHome; "init.d"] in
  let mk := MkdirAll SW h initScriptsDir 493 in
  let made := FsMkdirAll initScriptsDir 493 mk in
  match mk with
  | Some err => (Some (Errorf "failed to create Gradle init.d directory: " err), [made])
  | None =>
      let jfrogInitScriptPath := filepathJoin SW [initScriptsDir; InitScriptName] in
      let wr := WriteFile SW (h ++ [made]) jfrogInitScriptPath initScript 420 in
      let written := FsWriteFile jfrogInitScriptPath initScript 420 wr in
      match wr with
      | Some err =>
          (Some (Errorf ("failed to write Gradle init script to " +:+ jfrogInitScriptPath
                         +:+ ": ") err),
           [made; written])
      | None => (None, [made; written])
      end
  end.

(** CreateGradleBuildFile creates a Gradle init script file for the
    specified repository configuration. *)
Definition CreateGradleBuildFile (repoName : string) (serverDetails : config.ServerDetails)
    (projectKey : string) (h : list fsEvent) : orError string * list fsEvent :=
  (* Extract username and password/token *)
  let username := GetUser SW serverDetails in
  let password := GetPassword SW serverDetails in
  (* Get credentials from access-token if exists *)
  let username :=
    if negb (String.eqb (GetAccessToken SW serverDetails) "") then
      if String.eqb username "" then "token" else username
    else username in
  let password :=
    if negb (String.eqb (GetAccessToken SW serverDetails) "") then
      GetAccessToken SW serverDetails
    else password in
  (* Configure the init script auth config *)
  let config :=
    {| ArtifactoryURL := TrimSuffix (GetArtifactoryUrl SW serverDetails) "/";
       GradleRepoName := "api/gradle/" +:+ repoName;
       ArtifactoryUsername := username;
       ArtifactoryAccessToken := password |} in
  (* Generate the init script content *)
  match GenerateInitScript config with
  | inr err => (inr err, [])
  | inl initScript =>
      (* Write the init script to the Gradle user home *)
      match WriteInitScript initScript h with
      | (Some err, evs) => (inr err, evs)
      | (None, evs) =>
          (* Return the path where the init script was written *)
          (inl (filepathJoin SW [gradleHomeAt (h ++ evs); "init.d"; InitScriptName]), evs)
      end
  end.

End InitScript.

(** The configuration [GenerateInitScript] executes the template with. *)
Definition trimmedConfig (config : InitScriptAuthConfig) : InitScriptAuthConfig :=
  {| ArtifactoryURL := TrimSuffix (ArtifactoryURL config) "/";
     GradleRepoName := GradleRepoName config;
     ArtifactoryUsername := ArtifactoryUsername config;
     ArtifactoryAccessToken := ArtifactoryAccessToken config |}.

(** A sample world for the init script: the template prints its four fields,
    the environment is fixed, joining is by a slash, the file system obeys. *)
Definition printingTemplate (c : InitScriptAuthConfig) : orError string :=
  inl (ArtifactoryURL c +:+ "/" +:+ GradleRepoName c +:+ " "
       +:+ ArtifactoryUsername c +:+ ":" +:+ ArtifactoryAccessToken c).

Fixpoint joinSlash (parts : list string) : string :=
  match parts with
  | [] => ""
  | [p] => p
  | p :: r => p +:+ "/" +:+ joinSlash r
  end.

Definition sampleScriptWorld (gradleUserHome : string)
    (user password token : config.ServerDetails -> string)
    (mkdirErr writeErr : option error) : ScriptWorld :=
  {| gradleInitScript := "{{.ArtifactoryURL}}/{{.GradleRepoName}}";
     templateParse := fun _ => inl printingTemplate;
     Getenv := fun _ k => if String.eqb k UserHomeEnv then gradleUserHome else "";
     GetUserHomeDir := fun _ => "/home/user";
     filepathJoin := joinSlash;
     MkdirAll := fun _ _ _ => mkdirErr;
     WriteFile := fun _ _ _ _ => writeErr;
     GetUser := user;
     GetPassword := password;
     GetAccessToken := token;
     GetArtifactoryUrl := config.ArtifactoryUrl |}.

Definition serverAt (id url : string) : config.ServerDetails :=
  {| config.ServerId := id; config.ArtifactoryUrl := url |}.

(** ** Stepping through a run *)

Ltac run_unfold :=
  unfold outcomeOf, commandAfter, eventsOf, Run, conditionalUpload, unmarshalDeployableArtifacts,
    runGradle, getGradleDependencyLocalPath, createGradleRunConfig, init, ServerDetails,
    resultReader, bind, call, peek, this, try, check, assign, ret, throw, panic,
    CheckError, IsXrayScan, IsDetailedSummary in *.

(** Split on the next decision of the run: the innermost scrutinee that is
    not itself the result of a decision. *)
Ltac run_step :=
  rewrite ?app_nil_r;
  match goal with
  | |- context [match ?x with _ => _ end] =>
      lazymatch x with
      | context [match _ with _ => _ end] => fail
      | _ => destruct x eqn:?; cbn [fst snd app] in *
      end
  end.

(** Membership in an explicit trace, one entry at a time. *)
Ltac in_cases :=
  repeat match goal with
         | H : In _ (_ :: _) |- _ => destruct H as [H | H]
         | H : In _ [] |- _ => destruct H
         | H : @eq event _ _ |- _ => first [discriminate H | injection H as ?]
         end.

(** Use what the trace says the scanner answered. *)
Ltac verdict_known := subst; try discriminate; try congruence.

(** The decision a stuck computation is waiting for: the scrutinee at the
    head of the term. *)
Ltac split_head t :=
  lazymatch t with
  | match ?x with _ => _ end => first [split_head x | destruct x eqn:?]
  | ?f _ => split_head f
  end.

Ltac head_step :=
  rewrite ?app_nil_r;
  lazymatch goal with
  | |- _ = ?t -> _ => split_head t; cbn [fst snd app]
  end.

(** Name the run once, then follow [conditionalUpload] down every path, in
    program order. *)
Ltac gate_paths :=
  unfold outcomeOf, commandAfter, eventsOf;
  match goal with
  | |- context [conditionalUpload ?W ?gc ?h] =>
      let run := fresh "run" in
      let Hrun := fresh "Hrun" in
      remember (conditionalUpload W gc h) as run eqn:Hrun;
      revert Hrun; run_unfold; repeat head_step; intros Hrun; subst run;
      cbn [fst snd]
  end.

(** A selection with no file fails the length test, and only such a one. *)
Ltac empty_selection :=
  repeat match goal with
         | H : (0 <? length ?l)%nat = false |- _ =>
             destruct l; [clear H | discriminate H]
         end.

(** ** The configuration store *)

Lemma GetString_lookup (k : string) (c : Viper.t) :
  Viper.GetString k c =
  match c !! Viper.ToLower k with Some v => Viper.ToString v | None => "" end.
Proof.
  unfold Viper.GetString, Viper.Get.
  destruct (c !! Viper.ToLower k); [reflexivity |].
  destruct (Viper.hasNested k c); reflexivity.
Qed.

Lemma GetString_Set_same (k : string) (v : Viper.value) (c : Viper.t) :
  Viper.GetString k (Viper.Set_ k v c) = Viper.ToString v.
Proof.
  rewrite GetString_lookup. unfold Viper.Set_. by rewrite lookup_insert_eq.
Qed.

Lemma GetString_Set_other (k k' : string) (v : Viper.value) (c : Viper.t) :
  Viper.ToLower k' ≠ Viper.ToLower k ->
  Viper.GetString k (Viper.Set_ k' v c) = Viper.GetString k c.
Proof.
  intros Hne. rewrite !GetString_lookup. unfold Viper.Set_.
  by rewrite lookup_insert_ne.
Qed.


Lemma eqb_empty_false (s : string) : s ≠ "" -> String.eqb s "" = false.
Proof. intros Hs. by apply String.eqb_neq. Qed.

Section SetDeployFalse.

Variable W : Collaborators.
Hypothesis distinct : keysDistinct W.

Lemma keys_apart :
  Viper.ToLower (artifactsKey W) ≠ Viper.ToLower (urlKey W)
  /\ Viper.ToLower (artifactsKey W) ≠ Viper.ToLower (repoKey W)
  /\ Viper.ToLower (urlKey W) ≠ Viper.ToLower (repoKey W)
  /\ Viper.ToLower (ForkCount W) ≠ Viper.ToLower (artifactsKey W)
  /\ Viper.ToLower (ForkCount W) ≠ Viper.ToLower (urlKey W)
  /\ Viper.ToLower (ForkCount W) ≠ Viper.ToLower (repoKey W).
Proof.
  pose proof distinct as Hd. unfold keysDistinct in Hd.
      rewrite !NoDup_cons, !elem_of_cons in Hd.
  destruct Hd as (Ha & Hu & Hr & _).
  repeat split; intros Heq; rewrite ?Heq in *; tauto.
Qed.


Lemma setDeployFalse_url (c : Viper.t) :
  Viper.GetString (urlKey W) (setDeployFalse W c) =
  if String.eqb (Viper.GetString (urlKey W) c) "" then "http://empty_url"
  else Viper.GetString (urlKey W) c.
Proof.
  destruct keys_apart as (Hau & Har & Hur & _).
  unfold setDeployFalse. fold (artifactsKey W) (urlKey W) (repoKey W).
  rewrite (GetString_Set_other (urlKey W) (artifactsKey W)) by auto.
  destruct (String.eqb (Viper.GetString (urlKey W) c) "");
    case_match;
    rewrite ?(GetString_Set_other (urlKey W) (repoKey W)) by auto;
    rewrite ?GetString_Set_same;
    rewrite ?(GetString_Set_other (urlKey W) (artifactsKey W)) by auto; reflexivity.
Qed.

Lemma setDeployFalse_repo (c : Viper.t) :
  Viper.GetString (repoKey W) (setDeployFalse W c) =
  if String.eqb (Viper.GetString (repoKey W) c) "" then "empty_repo"
  else Viper.GetString (repoKey W) c.
Proof.
  destruct keys_apart as (Hau & Har & Hur & _).
  unfold setDeployFalse. fold (artifactsKey W) (urlKey W) (repoKey W).
  destruct (String.eqb (Viper.GetString (urlKey W) c) "") eqn:Hu;
    rewrite (GetString_Set_other (urlKey W) (artifactsKey W)), Hu by auto;
    rewrite ?(GetString_Set_other (repoKey W) (urlKey W)) by auto;
    rewrite (GetString_Set_other (repoKey W) (artifactsKey W)) by auto;
    destruct (String.eqb (Viper.GetString (repoKey W) c) "");
    rewrite ?GetString_Set_same;
    rewrite ?(GetString_Set_other (repoKey W) (urlKey W)) by auto;
    rewrite ?(GetString_Set_other (repoKey W) (artifactsKey W)) by auto; reflexivity.
Qed.




End SetDeployFalse.

(** ** The phases of [Run], one at a time *)

(** [init] in closed form: the three calls it may make and the two fields
    it may assign. *)
Lemma init_eq (W : Collaborators) (gc : GradleCommand) (h : history) :
  init W gc h =
  let read := EvReadConfigFile (configPath gc) (ReadConfigFile W h (configPath gc)) in
  match ReadConfigFile W h (configPath gc) with
  | inr e => (Err e, gc, [read])
  | inl v0 =>
      if xrayScan gc && negb (Viper.IsSet "deployer" v0) then (Err configError, gc, [read])
      else
        let gc1 :=
          setDeploymentDisabled (xrayScan gc || negb (Viper.IsSet "deployer" v0)) gc in
        if shouldCreateBuildArtifactsFile gc1 then
          let create := EvCreateTempFile (CreateTempFile W (h ++ [read])) in
          match CreateTempFile W (h ++ [read]) with
          | inr e => (Err e, gc1, [read; create])
          | inl name =>
              let gc2 := setBuildArtifactsDetailsFile (DoubleWinPathSeparator W name) gc1 in
              let close :=
                EvCloseTempFile name (CloseTempFile W ((h ++ [read]) ++ [create]) name) in
              match CloseTempFile W ((h ++ [read]) ++ [create]) name with
              | Some e => (Err e, gc2, [read; create; close])
              | None => (Ok v0, gc2, [read; create; close])
              end
          end
        else (Ok v0, gc1, [read])
  end.
Proof.
  unfold init, bind, call, this, try, check, assign, ret, throw, CheckError, IsXrayScan.
  cbn zeta. rewrite ?app_nil_r.
  destruct (ReadConfigFile W h (configPath gc)) as [v0 | e]; [| reflexivity].
  destruct (xrayScan gc && negb (Viper.IsSet "deployer" v0)); [reflexivity |].
  cbn [app]; rewrite ?app_nil_r.
  destruct (shouldCreateBuildArtifactsFile _); [| reflexivity].
  cbn [app]; rewrite ?app_nil_r.
  destruct (CreateTempFile W _) as [name | e]; [| reflexivity].
  cbn [app]; rewrite ?app_nil_r.
  destruct (CloseTempFile W _ name); reflexivity.
Qed.

Lemma init_events (W : Collaborators) (gc : GradleCommand) (h : history) (e : event) :
  In e (eventsOf (init W) gc h) ->
  isBuildEvent e = false /\ isScan e = false /\ isUnmarshal e = false /\ uploads [e] = [].
Proof.
  unfold eventsOf. rewrite init_eq. cbn zeta.
  repeat case_match; cbn [snd]; intros Hin; in_cases; subst; auto.
Qed.

(** [runGradle] leaves the command alone, makes build calls only, and builds
    the properties from the configuration it was given plus the overrides. *)
Lemma runGradle_inv (W : Collaborators) (vConfig : Viper.t) (ts : list string)
    (file : string) (conf : option build.BuildConfiguration) (n : Z) (dd : bool)
    (gc : GradleCommand) (h : history) :
  commandAfter (runGradle W vConfig ts file conf n dd) gc h = gc
  /\ Forall (fun e => isBuildEvent e = true) (eventsOf (runGradle W vConfig ts file conf n dd) gc h)
  /\ forall f c r,
       In (EvCreateBuildInfoProps f c r) (eventsOf (runGradle W vConfig ts file conf n dd) gc h) ->
       f = file /\ c = overrides W vConfig n dd.
Proof.
  run_unfold.
  repeat run_step; (split; [reflexivity |]); (split; [repeat constructor |]);
    intros f c r Hin; in_cases; subst; auto.
Qed.

Lemma unmarshalDeployableArtifacts_inv (W : Collaborators) (file : string)
    (gc : GradleCommand) (h : history) :
  exists r,
    eventsOf (unmarshalDeployableArtifacts W file) gc h
    = [EvUnmarshalDeployableArtifacts file (configPath gc) (xrayScan gc) r]
    /\ match r with
       | inl res =>
           outcomeOf (unmarshalDeployableArtifacts W file) gc h = Ok tt
           /\ commandAfter (unmarshalDeployableArtifacts W file) gc h = setResult (Some res) gc
       | inr e =>
           outcomeOf (unmarshalDeployableArtifacts W file) gc h = Err e
           /\ commandAfter (unmarshalDeployableArtifacts W file) gc h = gc
       end.
Proof.
  run_unfold. rewrite ?app_nil_r.
  exists (UnmarshalDeployableArtifacts W h file (configPath gc) (xrayScan gc)).
  destruct (UnmarshalDeployableArtifacts W h file (configPath gc) (xrayScan gc));
    cbn; auto.
Qed.

(** [conditionalUpload] may complete the server details; it writes no other
    field, and makes gate calls only. *)
Lemma conditionalUpload_frame (W : Collaborators) (gc : GradleCommand) (h : history) :
  result (commandAfter (conditionalUpload W) gc h) = result gc
  /\ Forall (fun e => isGateEvent e = true) (eventsOf (conditionalUpload W) gc h).
Proof.
  run_unfold.
  repeat run_step; (split; [cbn; congruence | repeat constructor]).
Qed.

(** [Run] as the sequence of its four phases. *)
Lemma Run_eq (W : Collaborators) (gc : GradleCommand) (h : history) :
  Run W gc h =
  match init W gc h with
  | (Ok vConfig, gc1, evs1) =>
      match runGradle W vConfig (tasks gc1) (buildArtifactsDetailsFile gc1)
              (configuration gc1) (threads gc1) (xrayScan gc1) gc1 (h ++ evs1) with
      | (Ok _, gc2, evs2) =>
          if negb (String.eqb (buildArtifactsDetailsFile gc2) "") then
            match unmarshalDeployableArtifacts W (buildArtifactsDetailsFile gc2) gc2
                    ((h ++ evs1) ++ evs2) with
            | (Ok _, gc3, evs3) =>
                if xrayScan gc2 then
                  match conditionalUpload W gc3 (((h ++ evs1) ++ evs2) ++ evs3) with
                  | (o, gc4, evs4) => (o, gc4, evs1 ++ evs2 ++ evs3 ++ evs4)
                  end
                else (Ok tt, gc3, evs1 ++ evs2 ++ evs3)
            | (Err e, gc3, evs3) => (Err e, gc3, evs1 ++ evs2 ++ evs3)
            | (Panic msg, gc3, evs3) => (Panic msg, gc3, evs1 ++ evs2 ++ evs3)
            end
          else (Ok tt, gc2, evs1 ++ evs2)
      | (Err e, gc2, evs2) => (Err e, gc2, evs1 ++ evs2)
      | (Panic msg, gc2, evs2) => (Panic msg, gc2, evs1 ++ evs2)
      end
  | (Err e, gc1, evs1) => (Err e, gc1, evs1)
  | (Panic msg, gc1, evs1) => (Panic msg, gc1, evs1)
  end.
Proof.
  unfold Run, bind, this, ret, IsXrayScan.
  destruct (init W gc h) as [[[vConfig | e | msg] gc1] evs1]; try reflexivity.
  cbn [app]. rewrite ?app_nil_r.
  destruct (runGradle W _ _ _ _ _ _ gc1 _) as [[[[] | e | msg] gc2] evs2];
    try reflexivity.
  cbn [app]. rewrite ?app_nil_r.
  destruct (negb _); [| by rewrite ?app_nil_r].
  rewrite ?app_nil_r.
  destruct (unmarshalDeployableArtifacts W _ gc2 _) as [[[[] | e | msg] gc3] evs3];
    try reflexivity.
  destruct (xrayScan gc2); [| by rewrite ?app_nil_r].
  by destruct (conditionalUpload W gc3 _) as [[o gc4] evs4].
Qed.

(** What a successful [init] leaves behind. *)
Lemma init_Ok (W : Collaborators) (gc gc1 : GradleCommand) (h : history)
    (v : Viper.t) (evs1 : list event) :
  init W gc h = (Ok v, gc1, evs1) ->
  ReadConfigFile W h (configPath gc) = inl v
  /\ (xrayScan gc = true -> Viper.IsSet "deployer" v = true)
  /\ deploymentDisabled gc1 = xrayScan gc || negb (Viper.IsSet "deployer" v)
  /\ (shouldCreateBuildArtifactsFile gc1 = false ->
      buildArtifactsDetailsFile gc1 = buildArtifactsDetailsFile gc)
  /\ configPath gc1 = configPath gc /\ tasks gc1 = tasks gc
  /\ configuration gc1 = configuration gc /\ threads gc1 = threads gc
  /\ detailedSummary gc1 = detailedSummary gc /\ xrayScan gc1 = xrayScan gc
  /\ result gc1 = result gc.
Proof.
  rewrite init_eq. cbn zeta.
  destruct (ReadConfigFile W h (configPath gc)) as [v0 | e]; [| discriminate].
  destruct (xrayScan gc) eqn:Hscan, (Viper.IsSet "deployer" v0) eqn:Hset;
    cbn [andb orb negb]; try discriminate.
  all: destruct (shouldCreateBuildArtifactsFile _) eqn:Hfile.
  all: repeat case_match; intros Heq; inversion Heq; subst; clear Heq.
  all: unfold shouldCreateBuildArtifactsFile in *; cbn in *.
  all: repeat split; auto; rewrite ?Hset; cbn; congruence.
Qed.

(** The scan of [conditionalUpload] is handed the result the command holds. *)
Lemma conditionalUpload_scans_result (W : Collaborators) (gc : GradleCommand) (h : history)
    r sd t f v :
  In (EvScanDeployableArtifacts r sd t f v) (eventsOf (conditionalUpload W) gc h) ->
  r = result gc /\ t = threads gc /\ f = scanOutputFormat gc.
Proof.
  run_unfold.
  repeat run_step; intros Hin; in_cases; subst; cbn; auto.
Qed.

Lemma Run_hands_overrides (W : Collaborators) (gc : GradleCommand) (h : history)
    (file : string) (cfg : Viper.t) (res : Viper.t * orError (gmap string string)) :
  In (EvCreateBuildInfoProps file cfg res) (eventsOf (Run W) gc h) ->
  exists v0,
    ReadConfigFile W h (configPath gc) = inl v0
    /\ cfg = overrides W v0 (threads gc) (xrayScan gc).
Proof.
  unfold eventsOf. rewrite Run_eq.
  destruct (init W gc h) as [[o1 gc1] evs1] eqn:Hinit.
  assert (Hnot1 : ~ In (EvCreateBuildInfoProps file cfg res) evs1).
  { intros Hin. pose proof (init_events W gc h (EvCreateBuildInfoProps file cfg res)) as Hev.
    unfold eventsOf in Hev. rewrite Hinit in Hev.
    destruct (Hev Hin) as [Hb _]. discriminate Hb. }
  destruct o1 as [v0 | e | msg]; cbn [snd]; try (intros Hin; destruct (Hnot1 Hin)).
  apply init_Ok in Hinit as (Hread & _ & _ & _ & _ & _ & _ & Hthreads & _ & Hscan & _).
  intros Hin. exists v0. split; [assumption |]. revert Hin.
  destruct (runGradle_inv W v0 (tasks gc1) (buildArtifactsDetailsFile gc1)
              (configuration gc1) (threads gc1) (xrayScan gc1) gc1 (h ++ evs1))
    as (_ & _ & Hprops).
  unfold eventsOf in Hprops.
  destruct (runGradle W _ _ _ _ _ _ gc1 _) as [[o2 gc2] evs2].
  assert (Hin2 : In (EvCreateBuildInfoProps file cfg res) evs2 ->
                 cfg = overrides W v0 (threads gc) (xrayScan gc)).
  { intros Hin. destruct (Hprops _ _ _ Hin) as [_ ->]. congruence. }
  assert (Hrest : forall evs3 evs4,
             Forall (fun e => isBuildEvent e = false) evs3 ->
             Forall (fun e => isGateEvent e = true) evs4 ->
             In (EvCreateBuildInfoProps file cfg res) (evs1 ++ evs2 ++ evs3 ++ evs4) ->
             cfg = overrides W v0 (threads gc) (xrayScan gc)).
  { intros evs3 evs4 H3 H4 Hin.
    rewrite !in_app_iff in Hin. destruct Hin as [Hin | [Hin | [Hin | Hin]]]; auto.
    - contradiction.
    - rewrite Forall_forall in H3. apply list_elem_of_In, H3 in Hin. discriminate Hin.
    - rewrite Forall_forall in H4. apply list_elem_of_In, H4 in Hin. discriminate Hin. }
  destruct o2 as [[] | e | msg];
    try (intros Hin; apply (Hrest [] []); [constructor | constructor | by rewrite !app_nil_r]).
  destruct (negb _);
    [| intros Hin; apply (Hrest [] []); [constructor | constructor | by rewrite !app_nil_r]].
  destruct (unmarshalDeployableArtifacts_inv W (buildArtifactsDetailsFile gc2) gc2
              ((h ++ evs1) ++ evs2)) as (r & Hevs3 & _).
  unfold eventsOf in Hevs3.
  destruct (unmarshalDeployableArtifacts W _ gc2 _) as [[o3 gc3] evs3].
  cbn [snd] in Hevs3. subst evs3.
  assert (H3 : Forall (fun e => isBuildEvent e = false)
                 [EvUnmarshalDeployableArtifacts (buildArtifactsDetailsFile gc2)
                    (configPath gc2) (xrayScan gc2) r])
    by (repeat constructor).
  destruct o3 as [[] | e | msg];
    try (intros Hin; apply (Hrest _ [] H3); [constructor | by rewrite !app_nil_r]).
  destruct (xrayScan gc2);
    [| intros Hin; apply (Hrest _ [] H3); [constructor | by rewrite !app_nil_r]].
  match goal with
  | |- context [conditionalUpload W ?g ?hh] =>
      destruct (conditionalUpload_frame W g hh) as [_ H4]; unfold eventsOf in H4;
      destruct (conditionalUpload W g hh) as [[o4 gc4] evs4]
  end.
  cbn [snd]. intros Hin. by apply (Hrest _ evs4 H3).
Qed.

Lemma handedConfigs_In (evs : list event) (cfg : Viper.t) :
  In cfg (handedConfigs evs) <->
  exists file res, In (EvCreateBuildInfoProps file cfg res) evs.
Proof.
  induction evs as [| e evs IH].
  - split; [intros [] | intros (? & ? & [])].
  - assert (Hskip : (exists f0 r0, In (EvCreateBuildInfoProps f0 cfg r0) evs) ->
                    exists f0 r0, In (EvCreateBuildInfoProps f0 cfg r0) (e :: evs)).
    { intros (f0 & r0 & Hin). exists f0, r0. by right. }
    destruct e; cbn [handedConfigs In]; rewrite ?IH;
      try (split; [exact Hskip | intros (f0 & r0 & [Heq | Hin]); [discriminate | eauto]]).
    split.
    + intros [-> | Hin]; [eexists _, _; by left | auto].
    + intros (f0 & r0 & [Heq | Hin]); [injection Heq as _ -> _; by left | right; eauto].
Qed.

(** ** The claims about [init] and [Run] *)

(** C4.  When a scan is requested and the configuration read has no
    deployer section, [init] fails with the configuration error, and so does
    [Run]: the command is left as it was and the only call made is the read
    of the configuration file -- no build, no scan, no upload. *)
Theorem scan_without_deployer_is_rejected (W : Collaborators) (gc : GradleCommand)
    (h : history) (v0 : Viper.t) :
  xrayScan gc = true ->
  ReadConfigFile W h (configPath gc) = inl v0 ->
  Viper.IsSet "deployer" v0 = false ->
  init W gc h = (Err configError, gc, [EvReadConfigFile (configPath gc) (inl v0)])
  /\ Run W gc h = (Err configError, gc, [EvReadConfigFile (configPath gc) (inl v0)]).
Proof.
  intros Hscan Hread Hset.
  assert (Hinit : init W gc h
                  = (Err configError, gc, [EvReadConfigFile (configPath gc) (inl v0)])).
  { rewrite init_eq. cbn zeta. by rewrite Hread, Hscan, Hset. }
  split; [exact Hinit |].
  by rewrite Run_eq, Hinit.
Qed.

Lemma scan_without_deployer_is_rejected_witness :
  let W := sampleWorld (inl withoutDeployer) (Some threeJars, Some twoPoms, None)
             None allUploadsPass in
  init W (scanCommand false) []
  = (Err configError, scanCommand false,
     [EvReadConfigFile ".jfrog/projects/gradle.yaml" (inl withoutDeployer)])
  /\ Run W (scanCommand false) []
     = (Err configError, scanCommand false,
        [EvReadConfigFile ".jfrog/projects/gradle.yaml" (inl withoutDeployer)]).
Proof.
  apply (scan_without_deployer_is_rejected
           (sampleWorld (inl withoutDeployer) (Some threeJars, Some twoPoms, None)
              None allUploadsPass)
           (scanCommand false) [] withoutDeployer).
  - reflexivity.
  - reflexivity.
  - vm_compute. reflexivity.
Defined.

(** After [init], [Run] makes build calls, at most one unmarshal call, and
    gate calls; the temporary file is the business of [init] alone. *)
Lemma Run_after_init (W : Collaborators) (gc : GradleCommand) (h : history) :
  exists rest,
    eventsOf (Run W) gc h = eventsOf (init W) gc h ++ rest
    /\ Forall (fun e => isCreateTempFile e = false) rest.
Proof.
  unfold eventsOf. rewrite Run_eq.
  destruct (init W gc h) as [[[v0 | e | msg] gc1] evs1]; cbn [snd];
    try (exists []; by rewrite app_nil_r).
  destruct (runGradle_inv W v0 (tasks gc1) (buildArtifactsDetailsFile gc1)
              (configuration gc1) (threads gc1) (xrayScan gc1) gc1 (h ++ evs1))
    as (_ & Hbuild & _).
  unfold eventsOf in Hbuild.
  destruct (runGradle W _ _ _ _ _ _ gc1 _) as [[o2 gc2] evs2]. cbn [snd] in Hbuild.
  assert (H2 : Forall (fun e => isCreateTempFile e = false) evs2).
  { eapply Forall_impl; [exact Hbuild | by intros []]. }
  destruct o2 as [[] | e | msg]; cbn [snd]; try by exists evs2.
  destruct (negb _); cbn [snd]; [| by exists evs2].
  match goal with
  | |- context [unmarshalDeployableArtifacts W ?file ?g ?hh] =>
      destruct (unmarshalDeployableArtifacts_inv W file g hh) as (r & Hevs3 & _);
      unfold eventsOf in Hevs3;
      destruct (unmarshalDeployableArtifacts W file g hh) as [[o3 gc3] evs3]
  end.
  cbn [snd] in Hevs3. subst evs3.
  destruct o3 as [[] | e | msg]; cbn [snd];
    try (eexists; split; [reflexivity | apply Forall_app; split; [exact H2 | by repeat constructor]]).
  destruct (xrayScan gc2); cbn [snd];
    try (eexists; split; [reflexivity | apply Forall_app; split; [exact H2 | by repeat constructor]]).
  match goal with
  | |- context [conditionalUpload W ?g ?hh] =>
      destruct (conditionalUpload_frame W g hh) as [_ H4]; unfold eventsOf in H4;
      destruct (conditionalUpload W g hh) as [[o4 gc4] evs4]
  end.
  cbn [snd] in *. eexists; split; [reflexivity |].
  rewrite !Forall_app. repeat split; [exact H2 | by repeat constructor |].
  eapply Forall_impl; [exact H4 | by intros []].
Qed.

Lemma existsb_none {A} (p : A -> bool) (l : list A) :
  Forall (fun a => p a = false) l -> existsb p l = false.
Proof.
  induction 1 as [| a l Ha _ IH]; [reflexivity |].
  cbn. by rewrite Ha, IH.
Qed.

(** C10, as stated, fails three times.  With a scan requested the
    condition of the claim holds whatever else is set, yet no artifacts file
    is created when the configuration has no deployer section ([init]
    returns the configuration error before it looks at the condition), nor
    when the configuration file cannot be read.  And a command with a
    detailed summary, no deployer section and no scan, which still holds the
    path of an artifacts file from before, creates no file, yet [Run]
    unmarshals the old one and populates the result. *)
Lemma artifacts_file_needs_config_and_fresh_command :
  let W := sampleWorld (inl withoutDeployer) (None, None, None) None allUploadsPass in
  let unreadable := MkError "open .jfrog/projects/gradle.yaml: no such file or directory" in
  let W' := sampleWorld (inr unreadable) (None, None, None) None allUploadsPass in
  let stale := setBuildArtifactsDetailsFile "/tmp/jfrog.cli.temp.-0" (buildCommand true) in
  (xrayScan (scanCommand true) = true
   /\ shouldCreateBuildArtifactsFile (scanCommand true) = true
   /\ Viper.IsSet "deployer" withoutDeployer = false
   /\ outcomeOf (Run W) (scanCommand true) [] = Err configError
   /\ existsb isCreateTempFile (eventsOf (Run W) (scanCommand true) []) = false)
  /\ (outcomeOf (Run W') (scanCommand true) [] = Err unreadable
      /\ existsb isCreateTempFile (eventsOf (Run W') (scanCommand true) []) = false)
  /\ (detailedSummary stale = true /\ xrayScan stale = false
      /\ result stale = None
      /\ existsb isCreateTempFile (eventsOf (Run W) stale []) = false
      /\ existsb isUnmarshal (eventsOf (Run W) stale []) = true
      /\ In (EvUnmarshalDeployableArtifacts "/tmp/jfrog.cli.temp.-0"
               ".jfrog/projects/gradle.yaml" false (inl sampleResult))
            (eventsOf (Run W) stale [])
      /\ result (commandAfter (Run W) stale []) = Some sampleResult).
Proof.
  intros W unreadable W' stale. split; [| split].
  - vm_compute. repeat split.
  - vm_compute. repeat split.
  - vm_compute. repeat split. do 8 right. left. reflexivity.
Qed.

(** C10, amended.  Let [init] have read the configuration and passed the
    deployer check (no scan is requested without a deployer section).  The
    flag [deploymentDisabled] it stores is "scan requested or no deployer
    section", and the run asks for the temporary build-artifacts file exactly
    when (detailed summary and deployment not disabled) or a scan is
    requested.  Consequently a command with a detailed summary, no scan and
    no deployer section, which holds no artifacts file from before, gets no
    artifacts file, never unmarshals deployable artifacts, and ends with the
    result it started with. *)
Theorem artifacts_file_created_iff (W : Collaborators) (gc : GradleCommand)
    (h : history) (v0 : Viper.t) :
  ReadConfigFile W h (configPath gc) = inl v0 ->
  (xrayScan gc = true -> Viper.IsSet "deployer" v0 = true) ->
  let disabled := xrayScan gc || negb (Viper.IsSet "deployer" v0) in
  deploymentDisabled (commandAfter (init W) gc h) = disabled
  /\ existsb isCreateTempFile (eventsOf (Run W) gc h)
     = (detailedSummary gc && negb disabled) || xrayScan gc
  /\ (detailedSummary gc = true -> xrayScan gc = false ->
      Viper.IsSet "deployer" v0 = false -> buildArtifactsDetailsFile gc = "" ->
      existsb isCreateTempFile (eventsOf (Run W) gc h) = false
      /\ existsb isUnmarshal (eventsOf (Run W) gc h) = false
      /\ result (commandAfter (Run W) gc h) = result gc).
Proof.
  intros Hread Hcheck disabled.
  assert (Hgate : xrayScan gc && negb (Viper.IsSet "deployer" v0) = false).
  { destruct (xrayScan gc); [by rewrite Hcheck | reflexivity]. }
  assert (Hfile : existsb isCreateTempFile (eventsOf (init W) gc h)
                  = (detailedSummary gc && negb disabled) || xrayScan gc).
  { unfold eventsOf. rewrite init_eq. cbn zeta. rewrite Hread, Hgate.
    unfold shouldCreateBuildArtifactsFile, IsDetailedSummary, IsXrayScan.
    cbn [deploymentDisabled detailedSummary xrayScan setDeploymentDisabled].
    fold disabled.
    destruct (detailedSummary gc && negb disabled || xrayScan gc); [| reflexivity].
    repeat case_match; reflexivity. }
  assert (Htemp : existsb isCreateTempFile (eventsOf (Run W) gc h)
                  = (detailedSummary gc && negb disabled) || xrayScan gc).
  { destruct (Run_after_init W gc h) as (rest & -> & Hrest).
    by rewrite existsb_app, (existsb_none _ _ Hrest), orb_false_r. }
  split; [| split; [exact Htemp |]].
  - unfold commandAfter. rewrite init_eq. cbn zeta. rewrite Hread, Hgate.
    repeat case_match; reflexivity.
  - intros Hsummary Hscan Hset Hfresh.
    split; [rewrite Htemp; unfold disabled; by rewrite Hsummary, Hscan, Hset |].
    unfold eventsOf, commandAfter. rewrite Run_eq, init_eq. cbn zeta.
    rewrite Hread, Hgate.
    unfold shouldCreateBuildArtifactsFile, IsDetailedSummary, IsXrayScan.
    cbn [deploymentDisabled detailedSummary xrayScan setDeploymentDisabled
         buildArtifactsDetailsFile tasks configuration threads].
    rewrite Hsummary, Hscan, Hset. cbn [andb orb negb].
    cbn [deploymentDisabled detailedSummary xrayScan setDeploymentDisabled
         buildArtifactsDetailsFile tasks configuration threads].
    match goal with
    | |- context [runGradle W ?v ?ts ?file ?conf ?n ?dd ?g ?hh] =>
        destruct (runGradle_inv W v ts file conf n dd g hh) as (Hsame & Hbuild & _);
        unfold commandAfter, eventsOf in Hsame, Hbuild;
        destruct (runGradle W v ts file conf n dd g hh) as [[o2 gc2] evs2]
    end.
    cbn [fst snd] in Hsame, Hbuild. subst gc2.
    cbn [buildArtifactsDetailsFile setDeploymentDisabled]. rewrite Hfresh.
    assert (H2 : existsb isUnmarshal evs2 = false).
    { apply existsb_none. eapply Forall_impl; [exact Hbuild | by intros []]. }
    destruct o2 as [[] | e | msg]; cbn; by rewrite H2.
Qed.

Lemma artifacts_file_created_iff_witness :
  let W := sampleWorld (inl withoutDeployer) (None, None, None) None allUploadsPass in
  deploymentDisabled (commandAfter (init W) (buildCommand true) []) = true
  /\ existsb isCreateTempFile (eventsOf (Run W) (buildCommand true) []) = false
  /\ existsb isUnmarshal (eventsOf (Run W) (buildCommand true) []) = false
  /\ result (commandAfter (Run W) (buildCommand true) []) = None.
Proof.
  intros W.
  destruct (artifacts_file_created_iff W (buildCommand true) [] withoutDeployer)
    as (Hflag & _ & Hrun).
  - reflexivity.
  - intros Hscan. discriminate Hscan.
  - assert (Hset : Viper.IsSet "deployer" withoutDeployer = false)
      by (vm_compute; reflexivity).
    destruct (Hrun eq_refl eq_refl Hset eq_refl) as (Htemp & Hunmarshal & Hresult).
    exact (conj Hflag (conj Htemp (conj Hunmarshal Hresult))).
Defined.

Lemma sampleWorld_keysDistinct cfg verdict closeErr uploadErr :
  keysDistinct (sampleWorld cfg verdict closeErr uploadErr).
Proof.
  unfold keysDistinct. refine (bool_decide_unpack _ _). vm_compute. exact I.
Defined.




(** ** The claims about [conditionalUpload] *)

(** C1, as stated, fails twice.  A binaries selection that is present but
    empty does not stop the descriptors phase: the poms are uploaded.  And
    with an absent binaries selection the run still reports the error of a
    failed Close, or the error of the scanner. *)
Lemma empty_binaries_selection_still_uploads :
  eventsOf (conditionalUpload
              (sampleWorld (inl withDeployer) (Some noFiles, Some twoPoms, None)
                 None allUploadsPass))
           (SetServerDetails (Some sampleServer) (scanCommandWithResult false)) []
  = [EvScanDeployableArtifacts (Some sampleResult) (Some sampleServer) 8 ""
       (Some noFiles, Some twoPoms, None);
     EvReaderClose (commandsutils.Reader sampleResult) None;
     EvUploadRun UploadPoms
       {| generic.uploadConfiguration := None;
          generic.buildConfiguration := Some sampleBuild;
          generic.spec := Some twoPoms;
          generic.serverDetails := Some sampleServer |}
       None]
  /\ outcomeOf (conditionalUpload
                  (sampleWorld (inl withDeployer) (None, None, None)
                     (Some closeFailed) allUploadsPass))
               (scanCommandWithResult false) []
     = Err closeFailed
  /\ outcomeOf (conditionalUpload
                  (sampleWorld (inl withDeployer) (None, None, Some scanFailed)
                     None allUploadsPass))
               (scanCommandWithResult false) []
     = Err scanFailed.
Proof. vm_compute. repeat split. Qed.

(** C1, amended.  In every run in which the scanner answers with an absent
    (nil) binaries selection, [conditionalUpload] makes no upload call of
    either kind; and it returns nil whenever, in addition, the scanner
    reported no error, the command holds a result, and no Close of the
    reader failed. *)
Theorem absent_binaries_selection_uploads_nothing (W : Collaborators)
    (gc : GradleCommand) (h : history) r sd t f poms err :
  In (EvScanDeployableArtifacts r sd t f (None, poms, err))
     (eventsOf (conditionalUpload W) gc h) ->
  uploads (eventsOf (conditionalUpload W) gc h) = []
  /\ (err = None -> is_Some (result gc) ->
      (forall rd e, ~ In (EvReaderClose rd (Some e)) (eventsOf (conditionalUpload W) gc h)) ->
      outcomeOf (conditionalUpload W) gc h = Ok tt).
Proof.
  gate_paths; intros Hin; in_cases; verdict_known;
    (split; [reflexivity |]); intros Herr [res Hres] Hclose;
    try reflexivity.
  all: try (exfalso; eapply Hclose; cbn; eauto 6; fail).
  all: cbn in *; congruence.
Qed.

Lemma absent_binaries_selection_uploads_nothing_witness :
  let W := sampleWorld (inl withDeployer) (None, Some twoPoms, None) None allUploadsPass in
  uploads (eventsOf (conditionalUpload W) (scanCommandWithResult false) []) = []
  /\ outcomeOf (conditionalUpload W) (scanCommandWithResult false) [] = Ok tt.
Proof.
  intros W.
  assert (Hin : In (EvScanDeployableArtifacts (Some sampleResult) (Some sampleServer) 8 ""
                      (None, Some twoPoms, None))
                   (eventsOf (conditionalUpload W) (scanCommandWithResult false) [])).
  { vm_compute. right. right. left. reflexivity. }
  assert (Hclose : forall rd e,
             ~ In (EvReaderClose rd (Some e))
                  (eventsOf (conditionalUpload W) (scanCommandWithResult false) [])).
  { intros rd e. vm_compute.
    intros [Hc | [Hc | [Hc | [Hc | []]]]]; discriminate Hc. }
  pose proof (absent_binaries_selection_uploads_nothing W (scanCommandWithResult false) []
                (Some sampleResult) (Some sampleServer) 8 "" (Some twoPoms) None Hin)
    as [Hnone Hok].
  exact (conj Hnone (Hok eq_refl (ex_intro _ sampleResult eq_refl) Hclose)).
Defined.

(** C2.  Let the command hold a result, as it does when [Run] calls
    [conditionalUpload], and let the run reach the scan.  Then exactly one
    terminal operation is invoked on the reader of that result: Close when
    no detailed summary was requested, Reset when one was.  It is the call
    that directly follows the scan, whatever the scanner answered -- error,
    absent selection or files --, and the only calls after it are uploads. *)
Theorem reader_disposed_exactly_once (W : Collaborators) (gc : GradleCommand)
    (h : history) (res : commandsutils.Result) r sd t f verdict :
  result gc = Some res ->
  In (EvScanDeployableArtifacts r sd t f verdict) (eventsOf (conditionalUpload W) gc h) ->
  disposals (eventsOf (conditionalUpload W) gc h)
  = [(if detailedSummary gc then Reset else Close, commandsutils.Reader res)]
  /\ exists pre d post,
       eventsOf (conditionalUpload W) gc h
       = pre ++ EvScanDeployableArtifacts r sd t f verdict :: d :: post
       /\ disposals [d] = disposals (eventsOf (conditionalUpload W) gc h)
       /\ uploads pre = []
       /\ forallb isUpload post = true.
Proof.
  intros Hres. revert Hres.
  gate_paths; intros Hres Hin; in_cases; verdict_known.
  all: cbn [result serverDetails threads scanOutputFormat configuration
            detailedSummary SetServerDetails] in *.
  all: try congruence.
  all: match goal with
       | |- context [EvReaderClose (commandsutils.Reader ?x) _] =>
           assert (x = res) as -> by congruence
       | |- context [EvReaderReset (commandsutils.Reader ?x)] =>
           assert (x = res) as -> by congruence
       end.
  all: destruct (detailedSummary gc); try discriminate.
  all: split; [reflexivity |].
  all: first
         [ eexists [], _, _; split; [reflexivity |]; by repeat split
         | eexists [_; _], _, _; split; [reflexivity |]; by repeat split ].
Qed.

Lemma reader_disposed_exactly_once_witness :
  let W := sampleWorld (inl withDeployer) (None, None, Some scanFailed) None allUploadsPass in
  let gc := SetServerDetails (Some sampleServer) (scanCommandWithResult true) in
  let scan :=
    EvScanDeployableArtifacts (Some sampleResult) (Some sampleServer) 8 ""
      (None, None, Some scanFailed) in
  disposals (eventsOf (conditionalUpload W) gc [])
  = [(Reset, commandsutils.Reader sampleResult)]
  /\ exists pre d post,
       eventsOf (conditionalUpload W) gc [] = pre ++ scan :: d :: post
       /\ disposals [d] = disposals (eventsOf (conditionalUpload W) gc [])
       /\ uploads pre = []
       /\ forallb isUpload post = true.
Proof.
  intros W gc scan.
  apply (reader_disposed_exactly_once W gc [] sampleResult
           (Some sampleResult) (Some sampleServer) 8 "" (None, None, Some scanFailed)).
  - reflexivity.
  - vm_compute. left. reflexivity.
Defined.

(** What each upload command is given: the binaries upload gets an upload
    configuration with the threads of the command, the poms upload gets no
    upload configuration at all; both get the build configuration. *)
Lemma upload_commands (W : Collaborators) (gc : GradleCommand) (h : history)
    (site : uploadSite) (uc : generic.UploadCommand) (err : option error) :
  In (EvUploadRun site uc err) (eventsOf (conditionalUpload W) gc h) ->
  generic.uploadConfiguration uc
  = match site with
    | UploadBinaries => Some {| utils.Threads := threads gc |}
    | UploadPoms => None
    end
  /\ generic.buildConfiguration uc = configuration gc
  /\ generic.serverDetails uc = serverDetails (commandAfter (conditionalUpload W) gc h).
Proof.
  gate_paths; intros Hin; in_cases; verdict_known; cbn; auto.
Qed.

(** C3 does not hold of the code.  With eight threads configured and both
    selections non-empty, the binaries upload is issued with an upload
    configuration of eight threads, the poms upload with none. *)
Theorem poms_upload_gets_no_thread_count :
  let W := sampleWorld (inl withDeployer) (Some threeJars, Some twoPoms, None)
             None allUploadsPass in
  let gc := scanCommandWithResult false in
  threads gc = 8
  /\ map (fun u => (fst (fst u), generic.uploadConfiguration (snd (fst u)), generic.spec (snd (fst u))))
         (uploads (eventsOf (conditionalUpload W) gc []))
     = [(UploadBinaries, Some {| utils.Threads := 8 |}, Some threeJars);
        (UploadPoms, None, Some twoPoms)].
Proof. vm_compute. split; reflexivity. Qed.

(** C5.  When the binaries upload returns an error, [conditionalUpload]
    returns that very error, and the binaries upload is the only upload of
    the run: the poms upload is not invoked. *)
Theorem failed_binaries_upload_stops_the_run (W : Collaborators) (gc : GradleCommand)
    (h : history) (uc : generic.UploadCommand) (e : error) :
  In (EvUploadRun UploadBinaries uc (Some e)) (eventsOf (conditionalUpload W) gc h) ->
  outcomeOf (conditionalUpload W) gc h = Err e
  /\ uploads (eventsOf (conditionalUpload W) gc h) = [(UploadBinaries, uc, Some e)].
Proof.
  gate_paths; intros Hin; in_cases; verdict_known; split; reflexivity.
Qed.

Lemma failed_binaries_upload_stops_the_run_witness :
  let W := sampleWorld (inl withDeployer) (Some threeJars, Some twoPoms, None)
             None (fun _ => Some uploadFailed) in
  let gc := SetServerDetails (Some sampleServer) (scanCommandWithResult false) in
  let uc := {| generic.uploadConfiguration := Some {| utils.Threads := 8 |};
               generic.buildConfiguration := Some sampleBuild;
               generic.spec := Some threeJars;
               generic.serverDetails := Some sampleServer |} in
  outcomeOf (conditionalUpload W) gc [] = Err uploadFailed
  /\ uploads (eventsOf (conditionalUpload W) gc []) = [(UploadBinaries, uc, Some uploadFailed)].
Proof.
  intros W gc uc.
  apply (failed_binaries_upload_stops_the_run W gc [] uc uploadFailed).
  vm_compute. right. right. left. reflexivity.
Defined.

(** C6.  Let the scanner answer, without error, two non-empty selections.
    Whenever the poms upload is issued, it is the last call of the run and
    the call directly before it is the binaries upload, which succeeded; and
    when the run succeeds, its uploads are exactly the binaries upload
    followed by the poms upload, both successful. *)
Theorem binaries_uploaded_before_poms (W : Collaborators) (gc : GradleCommand)
    (h : history) r sd t f (binaries poms : spec.SpecFiles) :
  In (EvScanDeployableArtifacts r sd t f (Some binaries, Some poms, None))
     (eventsOf (conditionalUpload W) gc h) ->
  spec.Files binaries ≠ [] ->
  spec.Files poms ≠ [] ->
  (forall up rp,
      In (EvUploadRun UploadPoms up rp) (eventsOf (conditionalUpload W) gc h) ->
      exists pre ub,
        eventsOf (conditionalUpload W) gc h
        = pre ++ [EvUploadRun UploadBinaries ub None; EvUploadRun UploadPoms up rp]
        /\ uploads pre = []
        /\ generic.spec ub = Some binaries
        /\ generic.spec up = Some poms)
  /\ (outcomeOf (conditionalUpload W) gc h = Ok tt ->
      map (fun u => (fst (fst u), snd u)) (uploads (eventsOf (conditionalUpload W) gc h))
      = [(UploadBinaries, None); (UploadPoms, None)]).
Proof.
  gate_paths; intros Hin Hbinaries Hpoms; in_cases; verdict_known; empty_selection;
    try congruence.
  all: split; [intros up rp Hup; in_cases; verdict_known | intros Hok; verdict_known].
  all: try reflexivity.
  all: first [ eexists [_; _], _; split; [reflexivity |]
             | eexists [_; _; _; _], _; split; [reflexivity |] ];
    by repeat split.
Qed.

Lemma binaries_uploaded_before_poms_witness :
  let W := sampleWorld (inl withDeployer) (Some threeJars, Some twoPoms, None)
             None allUploadsPass in
  let gc := SetServerDetails (Some sampleServer) (scanCommandWithResult false) in
  outcomeOf (conditionalUpload W) gc [] = Ok tt
  /\ map (fun u => (fst (fst u), snd u)) (uploads (eventsOf (conditionalUpload W) gc []))
     = [(UploadBinaries, None); (UploadPoms, None)].
Proof.
  intros W gc.
  assert (Hok : outcomeOf (conditionalUpload W) gc [] = Ok tt) by (vm_compute; reflexivity).
  split; [exact Hok |].
  refine (proj2 (binaries_uploaded_before_poms W gc []
                   (Some sampleResult) (Some sampleServer) 8 "" threeJars twoPoms _ _ _) Hok).
  - vm_compute. left. reflexivity.
  - discriminate.
  - discriminate.
Defined.

(** C8.  Let the scanner answer, without error, a binaries selection that
    is present, and let the run get past the disposal of the reader and the
    binaries phase.  If the poms selection is absent, the length test of the
    descriptors phase dereferences nil: the run panics, before any poms
    upload.  If it is present, the run does not panic. *)
Theorem absent_poms_selection_panics (W : Collaborators) (gc : GradleCommand)
    (h : history) r sd t f (binaries : spec.SpecFiles) (poms : option spec.SpecFiles) :
  In (EvScanDeployableArtifacts r sd t f (Some binaries, poms, None))
     (eventsOf (conditionalUpload W) gc h) ->
  is_Some (result gc) ->
  (forall rd e, ~ In (EvReaderClose rd (Some e)) (eventsOf (conditionalUpload W) gc h)) ->
  (forall uc e,
      ~ In (EvUploadRun UploadBinaries uc (Some e)) (eventsOf (conditionalUpload W) gc h)) ->
  (poms = None ->
   outcomeOf (conditionalUpload W) gc h = Panic nilDereference
   /\ forall uc e, ~ In (EvUploadRun UploadPoms uc e) (eventsOf (conditionalUpload W) gc h))
  /\ (poms ≠ None -> forall msg, outcomeOf (conditionalUpload W) gc h ≠ Panic msg).
Proof.
  gate_paths; intros Hin [res Hres] Hclose Hupload; in_cases; verdict_known.
  all: cbn [result SetServerDetails] in *; try congruence.
  all: try (exfalso; eapply Hclose; cbn; eauto 8; fail).
  all: try (exfalso; eapply Hupload; cbn; eauto 8; fail).
  all: split; [intros Hnil | intros Hsome]; try congruence; try discriminate.
  all: split; [reflexivity |]; intros uc e Hpom; in_cases.
Qed.

Lemma absent_poms_selection_panics_witness :
  let W := sampleWorld (inl withDeployer) (Some threeJars, None, None) None allUploadsPass in
  let gc := SetServerDetails (Some sampleServer) (scanCommandWithResult false) in
  outcomeOf (conditionalUpload W) gc [] = Panic nilDereference
  /\ map fst (uploads (eventsOf (conditionalUpload W) gc [])) = [(UploadBinaries,
       {| generic.uploadConfiguration := Some {| utils.Threads := 8 |};
          generic.buildConfiguration := Some sampleBuild;
          generic.spec := Some threeJars;
          generic.serverDetails := Some sampleServer |})].
Proof.
  intros W gc.
  split; [| vm_compute; reflexivity].
  refine (proj1 (proj1 (absent_poms_selection_panics W gc []
                          (Some sampleResult) (Some sampleServer) 8 "" threeJars None
                          _ _ _ _) eq_refl)).
  - vm_compute. left. reflexivity.
  - exists sampleResult. reflexivity.
  - intros rd e. vm_compute. intros [Hc | [Hc | [Hc | []]]]; discriminate Hc.
  - intros uc e. vm_compute. intros [Hc | [Hc | [Hc | []]]]; discriminate Hc.
Defined.

(** C9.  When Close fails, no detailed summary was requested and
    [conditionalUpload] returns the error of Close, whatever the scanner
    answered: an error returned by the scan is dropped, and no upload is
    attempted. *)
Theorem close_error_masks_scan_error (W : Collaborators) (gc : GradleCommand)
    (h : history) r sd t f binaries poms (scanErr : option error)
    (rd : content.ContentReader) (e : error) :
  In (EvScanDeployableArtifacts r sd t f (binaries, poms, scanErr))
     (eventsOf (conditionalUpload W) gc h) ->
  In (EvReaderClose rd (Some e)) (eventsOf (conditionalUpload W) gc h) ->
  detailedSummary gc = false
  /\ outcomeOf (conditionalUpload W) gc h = Err e
  /\ uploads (eventsOf (conditionalUpload W) gc h) = []
  /\ forall e', scanErr = Some e' -> e' ≠ e -> outcomeOf (conditionalUpload W) gc h ≠ Err e'.
Proof.
  gate_paths; intros Hscan Hclose; in_cases; verdict_known.
  all: cbn [detailedSummary SetServerDetails] in *.
  all: destruct (detailedSummary gc); try discriminate.
  all: repeat split; congruence.
Qed.

Lemma close_error_masks_scan_error_witness :
  let W := sampleWorld (inl withDeployer) (Some threeJars, Some twoPoms, Some scanFailed)
             (Some closeFailed) allUploadsPass in
  let gc := SetServerDetails (Some sampleServer) (scanCommandWithResult false) in
  outcomeOf (conditionalUpload W) gc [] = Err closeFailed
  /\ outcomeOf (conditionalUpload W) gc [] ≠ Err scanFailed
  /\ uploads (eventsOf (conditionalUpload W) gc []) = [].
Proof.
  intros W gc.
  destruct (close_error_masks_scan_error W gc [] (Some sampleResult) (Some sampleServer) 8 ""
              (Some threeJars) (Some twoPoms) (Some scanFailed)
              (commandsutils.Reader sampleResult) closeFailed)
    as (_ & Herr & Hnone & Hmask).
  - vm_compute. left. reflexivity.
  - vm_compute. right. left. reflexivity.
  - refine (conj Herr (conj (Hmask scanFailed eq_refl _) Hnone)). discriminate.
Defined.

(** [Run] reaches the scan only when a scan was requested, and then the
    command holds the result of the unmarshalling: the hypothesis that
    C1, C2 and C8 make on the result is what [Run] provides. *)
Lemma Run_scans_with_result (W : Collaborators) (gc : GradleCommand) (h : history)
    r sd t f verdict :
  In (EvScanDeployableArtifacts r sd t f verdict) (eventsOf (Run W) gc h) ->
  xrayScan gc = true /\ is_Some r.
Proof.
  unfold eventsOf. rewrite Run_eq.
  destruct (init W gc h) as [[o1 gc1] evs1] eqn:Hinit.
  assert (Hnot1 : ~ In (EvScanDeployableArtifacts r sd t f verdict) evs1).
  { intros Hin.
    pose proof (init_events W gc h (EvScanDeployableArtifacts r sd t f verdict)) as Hev.
    unfold eventsOf in Hev. rewrite Hinit in Hev.
    destruct (Hev Hin) as (_ & Hs & _). discriminate Hs. }
  destruct o1 as [v0 | e | msg]; cbn [snd]; try (intros Hin; destruct (Hnot1 Hin)).
  apply init_Ok in Hinit as (_ & _ & _ & _ & _ & _ & _ & _ & _ & Hscan & _).
  destruct (runGradle_inv W v0 (tasks gc1) (buildArtifactsDetailsFile gc1)
              (configuration gc1) (threads gc1) (xrayScan gc1) gc1 (h ++ evs1))
    as (Hsame & Hbuild & _).
  unfold commandAfter, eventsOf in Hsame, Hbuild.
  destruct (runGradle W _ _ _ _ _ _ gc1 _) as [[o2 gc2] evs2].
  cbn [fst snd] in Hsame, Hbuild. subst gc2.
  assert (Hnot2 : ~ In (EvScanDeployableArtifacts r sd t f verdict) evs2).
  { intros Hin. rewrite Forall_forall in Hbuild.
    apply list_elem_of_In, Hbuild in Hin. discriminate Hin. }
  destruct o2 as [[] | e | msg]; cbn [snd];
    try (rewrite in_app_iff; intros [Hin | Hin]; [destruct (Hnot1 Hin) | destruct (Hnot2 Hin)]).
  destruct (negb _); cbn [snd];
    try (rewrite in_app_iff; intros [Hin | Hin]; [destruct (Hnot1 Hin) | destruct (Hnot2 Hin)]).
  match goal with
  | |- context [unmarshalDeployableArtifacts W ?file ?g ?hh] =>
      destruct (unmarshalDeployableArtifacts_inv W file g hh) as (ur & Hevs3 & Hres);
      unfold eventsOf, outcomeOf, commandAfter in Hevs3, Hres;
      destruct (unmarshalDeployableArtifacts W file g hh) as [[o3 gc3] evs3]
  end.
  cbn [fst snd] in Hevs3, Hres. subst evs3.
  assert (Hskip : forall rest,
             In (EvScanDeployableArtifacts r sd t f verdict)
                (evs1 ++ evs2 ++
                 [EvUnmarshalDeployableArtifacts (buildArtifactsDetailsFile gc1)
                    (configPath gc1) (xrayScan gc1) ur] ++ rest) ->
             In (EvScanDeployableArtifacts r sd t f verdict) rest).
  { intros rest. rewrite !in_app_iff.
    intros [Hin | [Hin | [[Hin | []] | Hin]]];
      [destruct (Hnot1 Hin) | destruct (Hnot2 Hin) | discriminate Hin | exact Hin]. }
  destruct o3 as [[] | e | msg]; cbn [snd];
    try (intros Hin; rewrite <- (app_nil_r [_]) in Hin; by apply Hskip in Hin).
  destruct ur as [res | e]; [| destruct Hres as [Hres _]; discriminate Hres].
  destruct Hres as [_ ->].
  destruct (xrayScan gc1) eqn:Hscan1; cbn [snd];
    [| intros Hin; rewrite <- (app_nil_r [_]) in Hin; by apply Hskip in Hin].
  match goal with
  | |- context [conditionalUpload W ?g ?hh] =>
      pose proof (conditionalUpload_scans_result W g hh r sd t f verdict) as Hgate;
      unfold eventsOf in Hgate;
      destruct (conditionalUpload W g hh) as [[o4 gc4] evs4]
  end.
  cbn [snd] in *. intros Hin. apply Hskip, Hgate in Hin as (-> & _).
  split; [congruence | by eexists].
Qed.

(** * Further properties of the command *)

(** ** More about [Run] and its phases *)

Lemma quiet_trace (evs : list event) :
  Forall (fun e => isQuiet e = true) evs ->
  existsb isScan evs = false /\ disposals evs = [] /\ uploads evs = [].
Proof.
  induction 1 as [| e evs He _ (IHs & IHd & IHu)]; [by repeat split |].
  destruct e; try discriminate He; cbn; auto.
Qed.

Lemma init_trace (W : Collaborators) (gc : GradleCommand) (h : history) :
  Forall (fun e => isInitEvent e = true) (eventsOf (init W) gc h).
Proof.
  unfold eventsOf. rewrite init_eq. cbn zeta.
  repeat case_match; cbn [snd]; by repeat constructor.
Qed.

(** A build that succeeded ran the extractor, on the tasks it was given, and
    the extractor reported no error. *)
Lemma runGradle_Ok (W : Collaborators) (vConfig : Viper.t) (ts : list string)
    (file : string) (conf : option build.BuildConfiguration) (n : Z) (dd : bool)
    (gc gc' : GradleCommand) (h : history) (evs : list event) :
  runGradle W vConfig ts file conf n dd gc h = (Ok tt, gc', evs) ->
  exists details err,
    In (EvCalcDependencies details err) evs
    /\ ConvertExitCodeError W err = None
    /\ extractorTasks details = ts.
Proof.
  run_unfold.
  repeat run_step; intros Heq; inversion Heq; subst; clear Heq.
  all: eexists _, _; split; [cbn; eauto 10 |]; split; [eassumption | reflexivity].
Qed.

Lemma runGradle_no_panic (W : Collaborators) (vConfig : Viper.t) (ts : list string)
    (file : string) (conf : option build.BuildConfiguration) (n : Z) (dd : bool)
    (gc : GradleCommand) (h : history) (msg : string) :
  outcomeOf (runGradle W vConfig ts file conf n dd) gc h ≠ Panic msg.
Proof.
  run_unfold. repeat run_step; discriminate.
Qed.

(** Follow [Run] through its phases, with what is known of each. *)
Ltac run_phases :=
  unfold outcomeOf, commandAfter, eventsOf; rewrite ?Run_eq;
  lazymatch goal with
  | |- context [init ?W ?gc ?h] =>
      pose proof (init_trace W gc h) as Hev1; unfold eventsOf in Hev1;
      destruct (init W gc h) as [[[v0 | e1 | m1] gc1] evs1] eqn:Hinit;
      cbn [fst snd] in *
  end;
  try lazymatch goal with
  | Hi : init ?W ?gc ?h = (Ok ?v, ?g1, ?l1) |- _ =>
      pose proof (init_Ok W gc g1 h v l1 Hi) as Hok1
  end;
  try lazymatch goal with
  | |- context [runGradle ?W ?v ?ts ?file ?conf ?n ?dd ?g ?hh] =>
      destruct (runGradle_inv W v ts file conf n dd g hh) as (Hsame2 & Hev2 & Hprops2);
      pose proof (runGradle_no_panic W v ts file conf n dd g hh) as Hnopanic2;
      unfold outcomeOf, commandAfter, eventsOf in Hsame2, Hev2, Hprops2, Hnopanic2;
      destruct (runGradle W v ts file conf n dd g hh) as [[[[] | e2 | m2] gc2] evs2] eqn:Hbuild;
      cbn [fst snd] in *; subst gc2
  end;
  try lazymatch goal with
  | |- context [if negb ?b then _ else _] => destruct (negb b) eqn:Hfile
  end;
  try lazymatch goal with
  | |- context [unmarshalDeployableArtifacts ?W ?file ?g ?hh] =>
      destruct (unmarshalDeployableArtifacts_inv W file g hh) as (ur & Hev3 & Hres3);
      unfold outcomeOf, commandAfter, eventsOf in Hev3, Hres3;
      destruct (unmarshalDeployableArtifacts W file g hh) as [[o3 gc3] evs3];
      cbn [fst snd] in *; subst evs3;
      destruct ur as [res | e3]; destruct Hres3 as [Ho3 Hgc3]; subst o3 gc3
  end;
  try lazymatch goal with
  | |- context [if xrayScan ?g then _ else _] => destruct (xrayScan g) eqn:Hscan1
  end;
  try lazymatch goal with
  | |- context [conditionalUpload ?W ?g ?hh] =>
      destruct (conditionalUpload W g hh) as [[o4 gc4] evs4] eqn:Hgate
  end;
  cbn [fst snd] in *.

Lemma init_events_quiet (evs : list event) :
  Forall (fun e => isInitEvent e = true) evs -> Forall (fun e => isQuiet e = true) evs.
Proof. intros H. eapply Forall_impl; [exact H | by intros []]. Qed.

Lemma build_events_quiet (evs : list event) :
  Forall (fun e => isBuildEvent e = true) evs -> Forall (fun e => isQuiet e = true) evs.
Proof. intros H. eapply Forall_impl; [exact H | by intros []]. Qed.

(** X1.  Without a scan request [Run] never scans, never closes or resets
    the reader of the result, never uploads, and leaves the server details of
    the command alone, whatever the configuration and the collaborators. *)
Theorem Run_without_scan_is_quiet (W : Collaborators) (gc : GradleCommand) (h : history) :
  xrayScan gc = false ->
  existsb isScan (eventsOf (Run W) gc h) = false
  /\ disposals (eventsOf (Run W) gc h) = []
  /\ uploads (eventsOf (Run W) gc h) = []
  /\ serverDetails (commandAfter (Run W) gc h) = serverDetails gc.
Proof.
  intros Hscan.
  assert (Hquiet : Forall (fun e => isQuiet e = true) (eventsOf (Run W) gc h)
                   /\ serverDetails (commandAfter (Run W) gc h) = serverDetails gc).
  { revert Hscan. run_phases; intros Hscan.
    all: try (destruct Hok1 as (_ & _ & _ & _ & _ & _ & _ & _ & _ & Hx & _); congruence).
    all: repeat match goal with
                | H : Forall (fun e => isInitEvent e = true) _ |- _ =>
                    apply init_events_quiet in H
                | H : Forall (fun e => isBuildEvent e = true) _ |- _ =>
                    apply build_events_quiet in H
                end.
    all: split; [rewrite ?Forall_app; repeat split; auto; by repeat constructor |].
    all: try (rewrite init_eq in Hinit; cbn zeta in Hinit;
              repeat case_match; inversion Hinit; subst; reflexivity). }
  destruct Hquiet as [Hquiet Hserver].
  destruct (quiet_trace _ Hquiet) as (Hs & Hd & Hu). auto.
Qed.

Lemma Run_without_scan_is_quiet_witness :
  let W := sampleWorld (inl withDeployer) (Some threeJars, Some twoPoms, None)
             None allUploadsPass in
  existsb isScan (eventsOf (Run W) (buildCommand true) []) = false
  /\ disposals (eventsOf (Run W) (buildCommand true) []) = []
  /\ uploads (eventsOf (Run W) (buildCommand true) []) = []
  /\ serverDetails (commandAfter (Run W) (buildCommand true) []) = None.
Proof.
  intros W. apply (Run_without_scan_is_quiet W (buildCommand true) []). reflexivity.
Defined.

Lemma Forall_In_true {A} (p : A -> bool) (l : list A) (a : A) :
  Forall (fun x => p x = true) l -> In a l -> p a = true.
Proof. rewrite Forall_forall. intros Hall Hin. by apply Hall, list_elem_of_In. Qed.

(** Which call an event of [Run] can be, phase by phase. *)
Ltac not_of_phase :=
  repeat match goal with
         | Hall : Forall (fun e => _ e = true) ?l, Hin : In ?ev ?l |- _ =>
             let Hp := fresh "Hp" in
             pose proof (Forall_In_true _ _ _ Hall Hin) as Hp; clear Hin;
             try discriminate Hp
         end.

Lemma conditionalUpload_gate_events (W : Collaborators) (gc gc' : GradleCommand)
    (h : history) (o : outcome unit) (evs : list event) :
  conditionalUpload W gc h = (o, gc', evs) ->
  Forall (fun e => isGateEvent e = true) evs /\ result gc' = result gc.
Proof.
  intros Heq. destruct (conditionalUpload_frame W gc h) as [Hres Hev].
  unfold commandAfter, eventsOf in Hres, Hev. rewrite Heq in Hres, Hev. auto.
Qed.

(** X2.  [Run] unmarshals deployable artifacts only after the build ran the
    extractor on the tasks of the command and the extractor succeeded; the
    file it unmarshals is the non-empty artifacts file the command holds
    after [init], read with the configuration path and the scan flag of the
    command. *)
Theorem unmarshal_follows_successful_build (W : Collaborators) (gc : GradleCommand)
    (h : history) (file cfgPath : string) (late : bool)
    (r : orError commandsutils.Result) :
  In (EvUnmarshalDeployableArtifacts file cfgPath late r) (eventsOf (Run W) gc h) ->
  (exists details err,
      In (EvCalcDependencies details err) (eventsOf (Run W) gc h)
      /\ ConvertExitCodeError W err = None
      /\ extractorTasks details = tasks gc)
  /\ file ≠ ""
  /\ file = buildArtifactsDetailsFile (commandAfter (init W) gc h)
  /\ cfgPath = configPath gc
  /\ late = xrayScan gc.
Proof.
  run_phases; rewrite ?in_app_iff; intros Hin.
  all: try (apply conditionalUpload_gate_events in Hgate as [Hev4 _]).
  all: repeat match goal with H : _ \/ _ |- _ => destruct H end; in_cases; not_of_phase.
  all: destruct Hok1 as (_ & _ & _ & _ & Hpath & Htasks & _ & _ & _ & Hscan & _).
  all: apply runGradle_Ok in Hbuild as (details & err & Hcalc & Hconv & Hts).
  all: subst; split;
    [exists details, err; split; [rewrite !in_app_iff; auto | split; congruence] |].
  all: repeat split; auto.
  all: intros Hempty; rewrite Hempty in Hfile; discriminate Hfile.
Qed.

Lemma unmarshal_follows_successful_build_witness :
  let W := sampleWorld (inl withDeployer) (Some threeJars, Some twoPoms, None)
             None allUploadsPass in
  (exists details err,
      In (EvCalcDependencies details err) (eventsOf (Run W) (buildCommand true) [])
      /\ ConvertExitCodeError W err = None
      /\ extractorTasks details = ["clean"; "artifactoryPublish"])
  /\ "/tmp/jfrog.cli.temp.-1" ≠ ""
  /\ "/tmp/jfrog.cli.temp.-1"
     = buildArtifactsDetailsFile (commandAfter (init W) (buildCommand true) [])
  /\ ".jfrog/projects/gradle.yaml" = ".jfrog/projects/gradle.yaml"
  /\ false = false.
Proof.
  intros W.
  apply (unmarshal_follows_successful_build W (buildCommand true) []
           "/tmp/jfrog.cli.temp.-1" ".jfrog/projects/gradle.yaml" false (inl sampleResult)).
  vm_compute. do 10 right. left. reflexivity.
Defined.

(** X3.  When unmarshalling the deployable artifacts fails, [Run] returns
    that error; nothing is scanned, disposed of or uploaded, and the command
    keeps the result it had. *)
Theorem failed_unmarshal_stops_the_run (W : Collaborators) (gc : GradleCommand)
    (h : history) (file cfgPath : string) (late : bool) (e : error) :
  In (EvUnmarshalDeployableArtifacts file cfgPath late (inr e)) (eventsOf (Run W) gc h) ->
  outcomeOf (Run W) gc h = Err e
  /\ existsb isScan (eventsOf (Run W) gc h) = false
  /\ disposals (eventsOf (Run W) gc h) = []
  /\ uploads (eventsOf (Run W) gc h) = []
  /\ result (commandAfter (Run W) gc h) = result gc.
Proof.
  run_phases; rewrite ?in_app_iff; intros Hin.
  all: try (apply conditionalUpload_gate_events in Hgate as [Hev4 _]).
  all: repeat match goal with H : _ \/ _ |- _ => destruct H end; in_cases; not_of_phase.
  subst. destruct Hok1 as (_ & _ & _ & _ & _ & _ & _ & _ & _ & _ & Hres).
  apply init_events_quiet in Hev1. apply build_events_quiet in Hev2.
  assert (Hquiet : Forall (fun e => isQuiet e = true)
                     (evs1 ++ evs2 ++
                      [EvUnmarshalDeployableArtifacts (buildArtifactsDetailsFile gc1)
                         (configPath gc1) (xrayScan gc1) (inr e)])).
  { rewrite !Forall_app; repeat split; auto; by repeat constructor. }
  destruct (quiet_trace _ Hquiet) as (Hs & Hd & Hu). auto.
Qed.

Lemma failed_unmarshal_stops_the_run_witness :
  let W := answering None (inr unmarshalFailed) (Some sampleServer, None)
             (sampleWorld (inl withDeployer) (Some threeJars, Some twoPoms, None)
                None allUploadsPass) in
  outcomeOf (Run W) (scanCommand false) [] = Err unmarshalFailed
  /\ existsb isScan (eventsOf (Run W) (scanCommand false) []) = false
  /\ disposals (eventsOf (Run W) (scanCommand false) []) = []
  /\ uploads (eventsOf (Run W) (scanCommand false) []) = []
  /\ result (commandAfter (Run W) (scanCommand false) []) = None.
Proof.
  intros W.
  apply (failed_unmarshal_stops_the_run W (scanCommand false) []
           "/tmp/jfrog.cli.temp.-1" ".jfrog/projects/gradle.yaml" true unmarshalFailed).
  vm_compute. do 10 right. left. reflexivity.
Defined.

Lemma init_settings (W : Collaborators) (gc : GradleCommand) (h : history) :
  sameSettings gc (commandAfter (init W) gc h)
  /\ result (commandAfter (init W) gc h) = result gc
  /\ serverDetails (commandAfter (init W) gc h) = serverDetails gc.
Proof.
  unfold commandAfter, sameSettings. rewrite init_eq. cbn zeta.
  repeat case_match; cbn; by repeat split.
Qed.

Lemma conditionalUpload_settings (W : Collaborators) (gc : GradleCommand) (h : history) :
  sameSettings gc (commandAfter (conditionalUpload W) gc h)
  /\ deploymentDisabled (commandAfter (conditionalUpload W) gc h) = deploymentDisabled gc
  /\ buildArtifactsDetailsFile (commandAfter (conditionalUpload W) gc h)
     = buildArtifactsDetailsFile gc.
Proof.
  unfold sameSettings. gate_paths; cbn; by repeat split.
Qed.

(** X4.  [Run] never changes what the caller configured: the tasks, the
    configuration path, the build configuration, the threads, the two flags
    and the output format are, after any run, what they were before. *)
Theorem Run_keeps_settings (W : Collaborators) (gc : GradleCommand) (h : history) :
  sameSettings gc (commandAfter (Run W) gc h).
Proof.
  pose proof (init_settings W gc h) as (Hinit1 & _).
  revert Hinit1. run_phases; intros Hsame; try exact Hsame.
  pose proof (conditionalUpload_settings W (setResult (Some res) gc1)
                (((h ++ evs1) ++ evs2) ++
                 [EvUnmarshalDeployableArtifacts (buildArtifactsDetailsFile gc1)
                    (configPath gc1) true (inl res)])) as (Hgate4 & _).
  unfold commandAfter in Hgate4. rewrite Hgate in Hgate4. cbn [fst snd] in Hgate4.
  unfold sameSettings in *. cbn in Hgate4. intuition congruence.
Qed.

(** ** The server details *)

Lemma ServerDetails_held (W : Collaborators) (gc : GradleCommand) (h : history)
    (sd : config.ServerDetails) :
  serverDetails gc = Some sd -> ServerDetails W gc h = (Ok (Some sd), gc, []).
Proof.
  intros Hsd. unfold ServerDetails, bind, this, ret. cbn. by rewrite ?Hsd.
Qed.

(** X5.  Once [ServerDetails] has answered with server details, the command
    holds them, and every later call answers with the same details without
    reading the configuration or calling any collaborator, whatever happened
    in between. *)
Theorem ServerDetails_are_looked_up_once (W : Collaborators) (gc gc1 : GradleCommand)
    (h : history) (sd : config.ServerDetails) (evs : list event) :
  ServerDetails W gc h = (Ok (Some sd), gc1, evs) ->
  serverDetails gc1 = Some sd
  /\ forall h', ServerDetails W gc1 h' = (Ok (Some sd), gc1, []).
Proof.
  intros Hrun.
  assert (Hheld : serverDetails gc1 = Some sd).
  { revert Hrun. run_unfold. repeat run_step; intros Heq; inversion Heq; subst; cbn in *; congruence. }
  split; [exact Hheld |]. intros h'. by apply ServerDetails_held.
Qed.

Lemma ServerDetails_are_looked_up_once_witness :
  let W := sampleWorld (inl withDeployer) (Some threeJars, Some twoPoms, None)
             None allUploadsPass in
  serverDetails (SetServerDetails (Some sampleServer) (scanCommand false)) = Some sampleServer
  /\ forall h', ServerDetails W (SetServerDetails (Some sampleServer) (scanCommand false)) h'
                = (Ok (Some sampleServer),
                   SetServerDetails (Some sampleServer) (scanCommand false), []).
Proof.
  intros W.
  apply (ServerDetails_are_looked_up_once W (scanCommand false)
           (SetServerDetails (Some sampleServer) (scanCommand false)) []
           sampleServer
           [EvReadConfigFile ".jfrog/projects/gradle.yaml" (inl withDeployer);
            EvGetServerDetails withDeployer (Some sampleServer, None)]).
  vm_compute. reflexivity.
Defined.

(** X6.  [ServerDetails] stores what the lookup returned before it looks at
    the error: after a failed lookup the call returns the error of the
    lookup, and the command holds whatever details came with it, in place of
    none. *)
Theorem failed_lookup_overwrites_details (W : Collaborators) (gc : GradleCommand)
    (h : history) (vConfig : Viper.t) (details : option config.ServerDetails) (e : error) :
  In (EvGetServerDetails vConfig (details, Some e)) (eventsOf (ServerDetails W) gc h) ->
  outcomeOf (ServerDetails W) gc h = Err e
  /\ serverDetails gc = None
  /\ serverDetails (commandAfter (ServerDetails W) gc h) = details
  /\ ReadConfigFile W h (configPath gc) = inl vConfig.
Proof.
  run_unfold. repeat run_step; intros Hin; in_cases; subst; cbn; try congruence.
  all: repeat split; congruence.
Qed.

Lemma failed_lookup_overwrites_details_witness :
  let W := answering None (inl sampleResult) (Some sampleServer, Some lookupFailed)
             (sampleWorld (inl withDeployer) (Some threeJars, Some twoPoms, None)
                None allUploadsPass) in
  outcomeOf (ServerDetails W) (scanCommand false) [] = Err lookupFailed
  /\ serverDetails (scanCommand false) = None
  /\ serverDetails (commandAfter (ServerDetails W) (scanCommand false) []) = Some sampleServer
  /\ ReadConfigFile W [] (configPath (scanCommand false)) = inl withDeployer.
Proof.
  intros W.
  apply (failed_lookup_overwrites_details W (scanCommand false) [] withDeployer
           (Some sampleServer) lookupFailed).
  vm_compute. right. left. reflexivity.
Defined.

(** ** The gate, seen from [Run] *)

(** Every upload of [conditionalUpload] comes after the scan, which returned
    no error, and is for a selection of the scan that holds a file. *)
Lemma conditionalUpload_uploads (W : Collaborators) (gc : GradleCommand) (h : history)
    (site : uploadSite) (uc : generic.UploadCommand) (err : option error) :
  In (EvUploadRun site uc err) (eventsOf (conditionalUpload W) gc h) ->
  exists sd b p pre post,
    eventsOf (conditionalUpload W) gc h
    = pre ++ EvScanDeployableArtifacts (result gc) sd (threads gc) (scanOutputFormat gc)
               (Some b, p, None) :: post
    /\ In (EvUploadRun site uc err) post
    /\ generic.serverDetails uc = sd
    /\ generic.buildConfiguration uc = configuration gc
    /\ exists sel,
         generic.spec uc = Some sel /\ spec.Files sel <> []
         /\ match site with UploadBinaries => sel = b | UploadPoms => p = Some sel end.
Proof.
  gate_paths; intros Hin; in_cases; verdict_known; cbn in *.
  all: try match goal with H : result _ = Some _ |- _ => rewrite H end.
  all: first [eexists _, _, _, [], _; split; [reflexivity |]
             | eexists _, _, _, [_; _], _; split; [reflexivity |]].
  all: split; [cbn; auto 6 |]; split; [reflexivity |]; split; [reflexivity |].
  all: eexists; split; [reflexivity |]; split; [| reflexivity].
  all: intros Hnil; cbn in *;
    match goal with H : context [length (spec.Files _)] |- _ => rewrite Hnil in H end;
    discriminate.
Qed.

(** The scan of [conditionalUpload] gets the server details the command
    held; when it held none, those the lookup in the configuration gave. *)
Lemma conditionalUpload_scan_details (W : Collaborators) (gc : GradleCommand) (h : history)
    r sd n f v :
  In (EvScanDeployableArtifacts r sd n f v) (eventsOf (conditionalUpload W) gc h) ->
  sd = serverDetails (commandAfter (conditionalUpload W) gc h)
  /\ match serverDetails gc with
     | Some s => sd = Some s
     | None =>
         exists vConfig,
           In (EvGetServerDetails vConfig (sd, None)) (eventsOf (conditionalUpload W) gc h)
     end.
Proof.
  gate_paths; intros Hin; in_cases; verdict_known; cbn in *.
  all: split; [congruence |].
  all: repeat match goal with H : serverDetails _ = _ |- _ => rewrite H end.
  all: first [congruence | eexists; eauto 8].
Qed.

(** X8.  Every upload of a [Run] comes after a scan of the unmarshalled
    result that returned no error; it uploads a selection of that scan which
    holds at least one file (the binaries selection at the first site, the
    poms selection at the second), with the build configuration of the
    command and the server details the scan was given. *)
Theorem uploads_follow_a_clean_scan (W : Collaborators) (gc : GradleCommand) (h : history)
    (site : uploadSite) (uc : generic.UploadCommand) (err : option error) :
  In (EvUploadRun site uc err) (eventsOf (Run W) gc h) ->
  exists res sd b p pre post,
    eventsOf (Run W) gc h
    = pre ++ EvScanDeployableArtifacts (Some res) sd (threads gc) (scanOutputFormat gc)
               (Some b, p, None) :: post
    /\ In (EvUploadRun site uc err) post
    /\ generic.serverDetails uc = sd
    /\ generic.buildConfiguration uc = configuration gc
    /\ exists sel,
         generic.spec uc = Some sel /\ spec.Files sel <> []
         /\ match site with UploadBinaries => sel = b | UploadPoms => p = Some sel end.
Proof.
  pose proof (init_settings W gc h) as (Hsame & _ & _). revert Hsame.
  run_phases; rewrite ?in_app_iff; intros Hsame Hin.
  all: repeat match goal with H : _ \/ _ |- _ => destruct H end; in_cases; not_of_phase.
  destruct Hsame as (_ & _ & Hconf & Hthreads & _ & _ & Hformat).
  match type of Hgate with
  | conditionalUpload ?W ?g ?hh = _ =>
      destruct (conditionalUpload_uploads W g hh site uc err)
        as (sd & b & p & pre & post & Hevs & Hpost & Hsd & Hbuild' & Hsel);
      [unfold eventsOf; rewrite Hgate; assumption |]
  end.
  unfold eventsOf in Hevs. rewrite Hgate in Hevs. cbn in Hevs, Hbuild'. subst evs4.
  exists res, sd, b, p.
  eexists (evs1 ++ evs2 ++ [_] ++ pre), post.
  split; [rewrite <- Hthreads, <- Hformat; by rewrite <- !app_assoc |].
  repeat split; auto. congruence.
Qed.

Lemma uploads_follow_a_clean_scan_witness :
  let W := sampleWorld (inl withDeployer) (Some threeJars, Some twoPoms, None)
             None allUploadsPass in
  let uc := generic.SetServerDetails (Some sampleServer)
              (generic.SetSpec (Some twoPoms)
                 (generic.SetBuildConfiguration (Some sampleBuild)
                    generic.NewUploadCommand)) in
  exists res sd b p pre post,
    eventsOf (Run W) (scanCommand false) []
    = pre ++ EvScanDeployableArtifacts (Some res) sd (threads (scanCommand false))
               (scanOutputFormat (scanCommand false)) (Some b, p, None) :: post
    /\ In (EvUploadRun UploadPoms uc None) post
    /\ generic.serverDetails uc = sd
    /\ generic.buildConfiguration uc = configuration (scanCommand false)
    /\ exists sel,
         generic.spec uc = Some sel /\ spec.Files sel <> [] /\ p = Some sel.
Proof.
  intros W uc.
  apply (uploads_follow_a_clean_scan W (scanCommand false) [] UploadPoms uc None).
  vm_compute. do 16 right. left. reflexivity.
Defined.

(** X9.  What the scan of a [Run] is given: the result that the
    unmarshalling of this run returned, the threads and the output format of
    the command, and the server details the command ends with.  Details the
    caller has set are used as they are; only a command without details gets
    them from a lookup in the configuration, which returned no error. *)
Theorem scan_gets_the_unmarshalled_result (W : Collaborators) (gc : GradleCommand)
    (h : history) r sd n f v :
  In (EvScanDeployableArtifacts r sd n f v) (eventsOf (Run W) gc h) ->
  (exists file cfgPath res pre post,
      eventsOf (Run W) gc h
      = pre ++ EvUnmarshalDeployableArtifacts file cfgPath true (inl res) :: post
      /\ In (EvScanDeployableArtifacts r sd n f v) post
      /\ r = Some res)
  /\ n = threads gc /\ f = scanOutputFormat gc
  /\ sd = serverDetails (commandAfter (Run W) gc h)
  /\ match serverDetails gc with
     | Some s => sd = Some s
     | None =>
         exists vConfig, In (EvGetServerDetails vConfig (sd, None)) (eventsOf (Run W) gc h)
     end.
Proof.
  pose proof (init_settings W gc h) as (Hsame & _ & Hserver). revert Hsame Hserver.
  run_phases; rewrite ?in_app_iff; intros Hsame Hserver Hin.
  all: repeat match goal with H : _ \/ _ |- _ => destruct H end; in_cases; not_of_phase.
  destruct Hsame as (_ & _ & _ & Hthreads & _ & _ & Hformat).
  match type of Hgate with
  | conditionalUpload ?W ?g ?hh = _ =>
      destruct (conditionalUpload_scans_result W g hh r sd n f v) as (Hr & Hn & Hf);
      [unfold eventsOf; rewrite Hgate; assumption |];
      destruct (conditionalUpload_scan_details W g hh r sd n f v) as (Hsd & Hheld);
      [unfold eventsOf; rewrite Hgate; assumption |]
  end.
  unfold commandAfter, eventsOf in Hsd, Hheld. rewrite Hgate in Hsd, Hheld.
  cbn in Hr, Hn, Hf, Hsd, Hheld. rewrite Hserver in Hheld.
  split.
  { exists (buildArtifactsDetailsFile gc1), (configPath gc1), res, (evs1 ++ evs2), evs4.
    split; [by rewrite <- !app_assoc | auto]. }
  repeat split; try congruence.
  destruct (serverDetails gc); [exact Hheld |].
  destruct Hheld as (vConfig & Hlookup). exists vConfig. rewrite !in_app_iff. auto.
Qed.

Lemma scan_gets_the_unmarshalled_result_witness :
  let W := sampleWorld (inl withDeployer) (Some threeJars, Some twoPoms, None)
             None allUploadsPass in
  (exists file cfgPath res pre post,
      eventsOf (Run W) (scanCommand false) []
      = pre ++ EvUnmarshalDeployableArtifacts file cfgPath true (inl res) :: post
      /\ In (EvScanDeployableArtifacts (Some sampleResult) (Some sampleServer) 8 ""
               (Some threeJars, Some twoPoms, None)) post
      /\ Some sampleResult = Some res)
  /\ 8 = threads (scanCommand false) /\ "" = scanOutputFormat (scanCommand false)
  /\ Some sampleServer = serverDetails (commandAfter (Run W) (scanCommand false) [])
  /\ exists vConfig,
       In (EvGetServerDetails vConfig (Some sampleServer, None))
          (eventsOf (Run W) (scanCommand false) []).
Proof.
  intros W.
  apply (scan_gets_the_unmarshalled_result W (scanCommand false) []
           (Some sampleResult) (Some sampleServer) 8 ""
           (Some threeJars, Some twoPoms, None)).
  vm_compute. do 13 right. left. reflexivity.
Defined.

(** ** The build-artifacts file *)

Lemma createdTempFile_app (l1 l2 : list event) :
  createdTempFile (l1 ++ l2)
  = match createdTempFile l1 with Some name => Some name | None => createdTempFile l2 end.
Proof.
  induction l1 as [| e l1 IH]; [reflexivity |].
  destruct e; cbn; auto. by destruct res.
Qed.

Lemma createdTempFile_none (l : list event) :
  Forall (fun e => isCreateTempFile e = false) l -> createdTempFile l = None.
Proof.
  induction 1 as [| e l He _ IH]; [reflexivity |].
  destruct e; cbn; auto. discriminate He.
Qed.

Lemma Run_createdTempFile (W : Collaborators) (gc : GradleCommand) (h : history) :
  createdTempFile (eventsOf (Run W) gc h) = createdTempFile (eventsOf (init W) gc h).
Proof.
  destruct (Run_after_init W gc h) as (rest & -> & Hrest).
  rewrite createdTempFile_app, (createdTempFile_none rest Hrest).
  by destruct (createdTempFile _).
Qed.

(** The artifacts file after [init]: the file it created, or else the one
    the command held before. *)
Lemma init_file (W : Collaborators) (gc : GradleCommand) (h : history) :
  buildArtifactsDetailsFile (commandAfter (init W) gc h)
  = match createdTempFile (eventsOf (init W) gc h) with
    | Some name => DoubleWinPathSeparator W name
    | None => buildArtifactsDetailsFile gc
    end.
Proof.
  unfold commandAfter, eventsOf. rewrite init_eq. cbn zeta.
  repeat case_match; cbn in *; congruence.
Qed.

(** After [init] the artifacts file of the command stays as it is. *)
Lemma Run_file (W : Collaborators) (gc : GradleCommand) (h : history) :
  buildArtifactsDetailsFile (commandAfter (Run W) gc h)
  = buildArtifactsDetailsFile (commandAfter (init W) gc h).
Proof.
  run_phases; try reflexivity.
  match type of Hgate with
  | conditionalUpload ?W ?g ?hh = _ =>
      destruct (conditionalUpload_settings W g hh) as (_ & _ & Hkept)
  end.
  unfold commandAfter in Hkept. by rewrite Hgate in Hkept.
Qed.

Lemma Run_unmarshal_file (W : Collaborators) (gc : GradleCommand) (h : history)
    (file cfgPath : string) (late : bool) (r : orError commandsutils.Result) :
  In (EvUnmarshalDeployableArtifacts file cfgPath late r) (eventsOf (Run W) gc h) ->
  file = buildArtifactsDetailsFile (commandAfter (init W) gc h).
Proof.
  run_phases; rewrite ?in_app_iff; intros Hin.
  all: try (apply conditionalUpload_gate_events in Hgate as [Hev4 _]).
  all: repeat match goal with H : _ \/ _ |- _ => destruct H end; in_cases; not_of_phase.
  all: by subst.
Qed.

(** X10.  The file a [Run] unmarshals is the temporary file that this run
    created, under the name with doubled Windows separators; a run that
    created none unmarshals the artifacts file the command already held when
    the run began. *)
Theorem unmarshalled_file_is_created_or_held (W : Collaborators) (gc : GradleCommand)
    (h : history) (file cfgPath : string) (late : bool)
    (r : orError commandsutils.Result) :
  In (EvUnmarshalDeployableArtifacts file cfgPath late r) (eventsOf (Run W) gc h) ->
  file = match createdTempFile (eventsOf (Run W) gc h) with
         | Some name => DoubleWinPathSeparator W name
         | None => buildArtifactsDetailsFile gc
         end.
Proof.
  intros Hin. apply Run_unmarshal_file in Hin as ->.
  rewrite Run_createdTempFile. apply init_file.
Qed.

Lemma unmarshalled_file_is_created_or_held_witness :
  let W := sampleWorld (inl withDeployer) (Some threeJars, Some twoPoms, None)
             None allUploadsPass in
  let gc := setBuildArtifactsDetailsFile "/tmp/jfrog.cli.temp.-0" (buildCommand false) in
  "/tmp/jfrog.cli.temp.-0"
  = match createdTempFile (eventsOf (Run W) gc []) with
    | Some name => DoubleWinPathSeparator W name
    | None => buildArtifactsDetailsFile gc
    end.
Proof.
  intros W gc.
  apply (unmarshalled_file_is_created_or_held W gc [] "/tmp/jfrog.cli.temp.-0"
           ".jfrog/projects/gradle.yaml" false (inl sampleResult)).
  vm_compute. do 8 right. left. reflexivity.
Defined.

Lemma init_created (W : Collaborators) (gc : GradleCommand) (h : history) (name : string) :
  In (EvCreateTempFile (inl name)) (eventsOf (init W) gc h) ->
  exists err,
    In (EvCloseTempFile name err) (eventsOf (init W) gc h)
    /\ buildArtifactsDetailsFile (commandAfter (init W) gc h) = DoubleWinPathSeparator W name
    /\ forall e, err = Some e -> outcomeOf (init W) gc h = Err e.
Proof.
  unfold outcomeOf, commandAfter, eventsOf. rewrite init_eq. cbn zeta.
  repeat case_match; cbn [fst snd]; intros Hin; in_cases; subst; try congruence.
  all: eexists; split; [cbn; eauto |]; split; [reflexivity |]; congruence.
Qed.

Lemma Run_init_Err (W : Collaborators) (gc : GradleCommand) (h : history) (e : error) :
  outcomeOf (init W) gc h = Err e ->
  outcomeOf (Run W) gc h = Err e /\ eventsOf (Run W) gc h = eventsOf (init W) gc h.
Proof.
  unfold outcomeOf, eventsOf. rewrite Run_eq.
  destruct (init W gc h) as [[[v0 | e1 | m1] gc1] evs1]; cbn [fst snd]; try discriminate.
  intros [= ->]. by split.
Qed.

Lemma Run_created (W : Collaborators) (gc : GradleCommand) (h : history)
    (r : orError string) :
  In (EvCreateTempFile r) (eventsOf (Run W) gc h) ->
  In (EvCreateTempFile r) (eventsOf (init W) gc h).
Proof.
  destruct (Run_after_init W gc h) as (rest & -> & Hrest).
  rewrite in_app_iff. intros [Hin | Hin]; [exact Hin |].
  rewrite Forall_forall in Hrest. apply list_elem_of_In, Hrest in Hin. discriminate Hin.
Qed.

(** X11.  A temporary file that [Run] creates is always closed again, and
    the command ends with its name (with doubled Windows separators) as its
    artifacts file, however the run ends.  If closing it fails, the run stops
    with that error before anything is built: the trace holds the calls of
    [init] only. *)
Theorem created_file_is_closed (W : Collaborators) (gc : GradleCommand) (h : history)
    (name : string) :
  In (EvCreateTempFile (inl name)) (eventsOf (Run W) gc h) ->
  exists err,
    In (EvCloseTempFile name err) (eventsOf (Run W) gc h)
    /\ buildArtifactsDetailsFile (commandAfter (Run W) gc h) = DoubleWinPathSeparator W name
    /\ forall e, err = Some e ->
         outcomeOf (Run W) gc h = Err e
         /\ Forall (fun ev => isInitEvent ev = true) (eventsOf (Run W) gc h).
Proof.
  intros Hin. apply Run_created, init_created in Hin as (err & Hclose & Hfile & Herr).
  exists err. split; [| split].
  - destruct (Run_after_init W gc h) as (rest & -> & _). rewrite in_app_iff. by left.
  - by rewrite Run_file.
  - intros e He. destruct (Run_init_Err W gc h e (Herr e He)) as [Hout Hevs].
    split; [exact Hout |]. rewrite Hevs. apply init_trace.
Qed.

Lemma created_file_is_closed_witness :
  let W := sampleWorld (inl withDeployer) (Some threeJars, Some twoPoms, None)
             None allUploadsPass in
  exists err,
    In (EvCloseTempFile "/tmp/jfrog.cli.temp.-1" err) (eventsOf (Run W) (scanCommand false) [])
    /\ buildArtifactsDetailsFile (commandAfter (Run W) (scanCommand false) [])
       = DoubleWinPathSeparator W "/tmp/jfrog.cli.temp.-1"
    /\ forall e, err = Some e ->
         outcomeOf (Run W) (scanCommand false) [] = Err e
         /\ Forall (fun ev => isInitEvent ev = true) (eventsOf (Run W) (scanCommand false) []).
Proof.
  intros W.
  apply (created_file_is_closed W (scanCommand false) [] "/tmp/jfrog.cli.temp.-1").
  vm_compute. right. left. reflexivity.
Defined.

(** ** The build *)

(** The extractor is the last call of [runGradle], and its converted exit
    code is what [runGradle] returns. *)
Lemma runGradle_calc (W : Collaborators) (vConfig : Viper.t) (ts : list string)
    (file : string) (conf : option build.BuildConfiguration) (n : Z) (dd : bool)
    (gc : GradleCommand) (h : history) (details : ExtractorDetails) (err : option error) :
  In (EvCalcDependencies details err) (eventsOf (runGradle W vConfig ts file conf n dd) gc h) ->
  outcomeOf (runGradle W vConfig ts file conf n dd) gc h
  = match ConvertExitCodeError W err with Some e => Err e | None => Ok tt end.
Proof.
  run_unfold. repeat run_step; intros Hin; in_cases; subst.
  all: congruence.
Qed.

(** X12.  When the extractor fails, that is, its exit code converts to an
    error, [Run] returns that error; nothing is unmarshalled, scanned,
    disposed of or uploaded, and the command keeps the result it had. *)
Theorem failed_build_stops_the_run (W : Collaborators) (gc : GradleCommand) (h : history)
    (details : ExtractorDetails) (err : option error) (e : error) :
  In (EvCalcDependencies details err) (eventsOf (Run W) gc h) ->
  ConvertExitCodeError W err = Some e ->
  outcomeOf (Run W) gc h = Err e
  /\ existsb isUnmarshal (eventsOf (Run W) gc h) = false
  /\ existsb isScan (eventsOf (Run W) gc h) = false
  /\ disposals (eventsOf (Run W) gc h) = []
  /\ uploads (eventsOf (Run W) gc h) = []
  /\ result (commandAfter (Run W) gc h) = result gc.
Proof.
  pose proof (init_settings W gc h) as (_ & Hres & _). revert Hres.
  run_phases; rewrite ?in_app_iff; intros Hres Hin Hconv.
  all: try (apply conditionalUpload_gate_events in Hgate as [Hev4 _]).
  all: repeat match goal with H : _ \/ _ |- _ => destruct H end; in_cases.
  all: try (match goal with
            | Hall : Forall _ ?l, Hi : In _ ?l |- _ =>
                pose proof (Forall_In_true _ _ _ Hall Hi) as Hp; discriminate Hp
            end).
  all: match goal with
       | Hi : In (EvCalcDependencies ?d ?er) ?l,
         Hb : runGradle ?W ?v ?ts ?file ?conf ?n ?dd ?g ?hh = (_, _, ?l) |- _ =>
           pose proof (runGradle_calc W v ts file conf n dd g hh d er) as Hcalc;
           unfold outcomeOf, eventsOf in Hcalc; rewrite Hb in Hcalc;
           specialize (Hcalc Hi); rewrite Hconv in Hcalc; cbn in Hcalc
       end.
  all: try discriminate Hcalc.
  injection Hcalc as ->.
  apply init_events_quiet in Hev1 as Hq1. apply build_events_quiet in Hev2 as Hq2.
  assert (Hquiet : Forall (fun ev => isQuiet ev = true) (evs1 ++ evs2))
    by (rewrite Forall_app; auto).
  destruct (quiet_trace _ Hquiet) as (Hs & Hd & Hu).
  repeat split; auto.
  apply existsb_none. rewrite Forall_app. split.
  - eapply Forall_impl; [exact Hev1 | by intros []].
  - eapply Forall_impl; [exact Hev2 | by intros []].
Qed.

Lemma failed_build_stops_the_run_witness :
  let W := answering (Some buildFailed) (inl sampleResult) (Some sampleServer, None)
             (sampleWorld (inl withDeployer) (Some threeJars, Some twoPoms, None)
                None allUploadsPass) in
  outcomeOf (Run W) (scanCommand false) [] = Err buildFailed
  /\ existsb isUnmarshal (eventsOf (Run W) (scanCommand false) []) = false
  /\ existsb isScan (eventsOf (Run W) (scanCommand false) []) = false
  /\ disposals (eventsOf (Run W) (scanCommand false) []) = []
  /\ uploads (eventsOf (Run W) (scanCommand false) []) = []
  /\ result (commandAfter (Run W) (scanCommand false) []) = result (scanCommand false).
Proof.
  intros W.
  pose (details :=
          match nth_error (eventsOf (Run W) (scanCommand false) []) 9 with
          | Some (EvCalcDependencies d _) => d
          | _ => {| localPath := ""; propsDir := ""; extractorTasks := [];
                    useWrapperFlag := false; usePluginFlag := false; props := ∅ |}
          end).
  apply (failed_build_stops_the_run W (scanCommand false) [] details (Some buildFailed)
           buildFailed).
  - vm_compute. do 9 right. left. reflexivity.
  - reflexivity.
Defined.

(** ** The configuration handed to the build *)

(** [setDeployFalse] writes under its three keys only. *)
Lemma setDeployFalse_frame (W : Collaborators) (c : Viper.t) (k : string) :
  k ≠ Viper.ToLower (artifactsKey W) -> k ≠ Viper.ToLower (urlKey W) ->
  k ≠ Viper.ToLower (repoKey W) ->
  setDeployFalse W c !! k = c !! k.
Proof.
  intros Ha Hu Hr. unfold setDeployFalse. fold (artifactsKey W) (urlKey W) (repoKey W).
  repeat case_match; unfold Viper.Set_; by rewrite !lookup_insert_ne.
Qed.

Lemma overrides_frame (W : Collaborators) (c : Viper.t) (n : Z) (dd : bool) (k : string) :
  k ≠ Viper.ToLower (ForkCount W) ->
  k ≠ Viper.ToLower (artifactsKey W) -> k ≠ Viper.ToLower (urlKey W) ->
  k ≠ Viper.ToLower (repoKey W) ->
  overrides W c n dd !! k = c !! k.
Proof.
  intros Hf Ha Hu Hr. unfold overrides.
  destruct dd; rewrite ?setDeployFalse_frame by assumption;
    destruct (0 <? n); unfold Viper.Set_; by rewrite ?lookup_insert_ne.
Qed.

Lemma overrides_forkCount (W : Collaborators) (c : Viper.t) (n : Z) (dd : bool) :
  keysDistinct W ->
  overrides W c n dd !! Viper.ToLower (ForkCount W)
  = if 0 <? n then Some (Viper.VInt n) else c !! Viper.ToLower (ForkCount W).
Proof.
  intros Hkeys. destruct (keys_apart W Hkeys) as (_ & _ & _ & Hfa & Hfu & Hfr).
  unfold overrides.
  destruct dd; rewrite ?setDeployFalse_frame by assumption;
    destruct (0 <? n); unfold Viper.Set_; by rewrite ?lookup_insert_eq.
Qed.

(** X13.  The configuration [Run] hands to the property builder is the
    configuration it read, changed under four keys at most: the fork count,
    bound to the threads of the command when they are positive and left as
    read otherwise, and the three deployer keys.  A run without a scan and
    without positive threads hands over the configuration exactly as read. *)
Theorem handed_configuration_is_the_one_read (W : Collaborators) (gc : GradleCommand)
    (h : history) (cfg : Viper.t) :
  keysDistinct W ->
  In cfg (handedConfigs (eventsOf (Run W) gc h)) ->
  exists v0,
    ReadConfigFile W h (configPath gc) = inl v0
    /\ cfg !! Viper.ToLower (ForkCount W)
       = (if 0 <? threads gc then Some (Viper.VInt (threads gc))
          else v0 !! Viper.ToLower (ForkCount W))
    /\ (forall k,
          k ≠ Viper.ToLower (ForkCount W) -> k ≠ Viper.ToLower (artifactsKey W) ->
          k ≠ Viper.ToLower (urlKey W) -> k ≠ Viper.ToLower (repoKey W) ->
          cfg !! k = v0 !! k)
    /\ (xrayScan gc = false -> threads gc <= 0 -> cfg = v0).
Proof.
  intros Hkeys Hin. apply handedConfigs_In in Hin as (file & res & Hin).
  apply Run_hands_overrides in Hin as (v0 & Hread & ->).
  exists v0. split; [exact Hread |]. split; [by apply overrides_forkCount |].
  split; [intros k; apply overrides_frame |].
  intros Hscan Hthreads. unfold overrides. rewrite Hscan.
  by destruct (Z.ltb_spec 0 (threads gc)); [lia |].
Qed.

Lemma handed_configuration_is_the_one_read_witness :
  let W := sampleWorld (inl withDeployer) (Some threeJars, Some twoPoms, None)
             None allUploadsPass in
  let cfg := overrides W withDeployer 8 true in
  exists v0,
    ReadConfigFile W [] (configPath (scanCommand false)) = inl v0
    /\ cfg !! Viper.ToLower (ForkCount W)
       = (if 0 <? threads (scanCommand false)
          then Some (Viper.VInt (threads (scanCommand false)))
          else v0 !! Viper.ToLower (ForkCount W))
    /\ (forall k,
          k ≠ Viper.ToLower (ForkCount W) -> k ≠ Viper.ToLower (artifactsKey W) ->
          k ≠ Viper.ToLower (urlKey W) -> k ≠ Viper.ToLower (repoKey W) ->
          cfg !! k = v0 !! k)
    /\ (xrayScan (scanCommand false) = false -> threads (scanCommand false) <= 0 ->
        cfg = v0).
Proof.
  intros W cfg.
  apply (handed_configuration_is_the_one_read W (scanCommand false) [] cfg).
  - apply sampleWorld_keysDistinct.
  - vm_compute. left. reflexivity.
Defined.

(** X14.  [setDeployFalse] is idempotent: once applied, the flag is
    "false" and the URL and the repository read non-empty, so a second
    application changes nothing. *)
Theorem setDeployFalse_idempotent (W : Collaborators) (c : Viper.t) :
  keysDistinct W ->
  setDeployFalse W (setDeployFalse W c) = setDeployFalse W c.
Proof.
  intros Hkeys. destruct (keys_apart W Hkeys) as (Hau & Har & Hur & _).
  pose proof (setDeployFalse_url W Hkeys c) as Hurl.
  pose proof (setDeployFalse_repo W Hkeys c) as Hrepo.
  assert (Hflag : setDeployFalse W c !! Viper.ToLower (artifactsKey W)
                  = Some (Viper.VString "false")).
  { unfold setDeployFalse. fold (artifactsKey W) (urlKey W) (repoKey W).
    repeat case_match; unfold Viper.Set_;
      rewrite ?lookup_insert_ne by auto; by rewrite lookup_insert_eq. }
  assert (Hu : Viper.GetString (urlKey W) (setDeployFalse W c) ≠ "").
  { rewrite Hurl. destruct (String.eqb (Viper.GetString (urlKey W) c) "") eqn:Heq; [done |].
    by apply String.eqb_neq. }
  assert (Hr : Viper.GetString (repoKey W) (setDeployFalse W c) ≠ "").
  { rewrite Hrepo. destruct (String.eqb (Viper.GetString (repoKey W) c) "") eqn:Heq; [done |].
    by apply String.eqb_neq. }
  set (c' := setDeployFalse W c) in *.
  unfold setDeployFalse at 1. fold (artifactsKey W) (urlKey W) (repoKey W).
  assert (Hsame : Viper.Set_ (artifactsKey W) (Viper.VString "false") c' = c')
    by exact (insert_id _ _ _ Hflag).
  rewrite Hsame. by rewrite (eqb_empty_false _ Hu), (eqb_empty_false _ Hr).
Qed.

Lemma setDeployFalse_idempotent_witness :
  let W := sampleWorld (inl withDeployer) (Some threeJars, Some twoPoms, None)
             None allUploadsPass in
  setDeployFalse W (setDeployFalse W withEmptyUrl) = setDeployFalse W withEmptyUrl.
Proof.
  intros W. apply (setDeployFalse_idempotent W withEmptyUrl).
  apply sampleWorld_keysDistinct.
Defined.

(** X15.  The extractor runs only after the build and its Gradle module
    were registered and the properties were built, all without error.  It
    gets the tasks as given; the wrapper flag as the configuration read it
    before any override; the plugin flag as the configuration reads after
    the property builder has had it; and the properties of the builder, to
    which, for a non-empty artifacts file, the deployable-artifacts entry of
    that later configuration is added. *)
Theorem extractor_gets_the_run_configuration (W : Collaborators) (vConfig : Viper.t)
    (ts : list string) (file : string) (conf : option build.BuildConfiguration)
    (n : Z) (dd : bool) (gc : GradleCommand) (h : history)
    (details : ExtractorDetails) (err : option error) :
  In (EvCalcDependencies details err) (eventsOf (runGradle W vConfig ts file conf n dd) gc h) ->
  extractorTasks details = ts
  /\ useWrapperFlag details = Viper.GetBool useWrapper vConfig
  /\ exists name number cfg' props0 deps,
       In (EvGetBuildName conf (inl name)) (eventsOf (runGradle W vConfig ts file conf n dd) gc h)
       /\ In (EvGetBuildNumber conf (inl number))
             (eventsOf (runGradle W vConfig ts file conf n dd) gc h)
       /\ In (EvGetOrCreateBuildWithProject name number (GetProject W conf) None)
             (eventsOf (runGradle W vConfig ts file conf n dd) gc h)
       /\ In (EvAddGradleModule None) (eventsOf (runGradle W vConfig ts file conf n dd) gc h)
       /\ In (EvCreateBuildInfoProps file (overrides W vConfig n dd) (cfg', inl props0))
             (eventsOf (runGradle W vConfig ts file conf n dd) gc h)
       /\ In (EvGetJfrogDependenciesPath (inl deps))
             (eventsOf (runGradle W vConfig ts file conf n dd) gc h)
       /\ usePluginFlag details = Viper.GetBool usePlugin cfg'
       /\ props details
          = (if negb (String.eqb file "")
             then <[DeployableArtifacts W :=
                      Viper.Sprint (Viper.Get (DeployableArtifacts W) cfg')]> props0
             else props0)
       /\ localPath details = Join W deps "gradle".
Proof.
  run_unfold. repeat run_step; intros Hin; in_cases; subst.
  all: split; [reflexivity |]; split; [reflexivity |].
  all: eexists _, _, _, _, _; cbn [In].
  all: repeat match goal with
              | H : negb _ = _ |- _ => rewrite H
              | |- _ /\ _ => split
              end; eauto 10.
Qed.

Lemma extractor_gets_the_run_configuration_witness :
  let W := sampleWorld (inl withDeployer) (Some threeJars, Some twoPoms, None)
             None allUploadsPass in
  let file := "/tmp/jfrog.cli.temp.-1" in
  let run := runGradle W withDeployer ["clean"; "artifactoryPublish"] file
               (Some sampleBuild) 8 true in
  let details :=
    match nth_error (eventsOf run (scanCommand false) []) 6 with
    | Some (EvCalcDependencies d _) => d
    | _ => {| localPath := ""; propsDir := ""; extractorTasks := [];
              useWrapperFlag := false; usePluginFlag := false; props := ∅ |}
    end in
  extractorTasks details = ["clean"; "artifactoryPublish"]
  /\ useWrapperFlag details = Viper.GetBool useWrapper withDeployer
  /\ exists name number cfg' props0 deps,
       In (EvGetBuildName (Some sampleBuild) (inl name)) (eventsOf run (scanCommand false) [])
       /\ In (EvGetBuildNumber (Some sampleBuild) (inl number))
             (eventsOf run (scanCommand false) [])
       /\ In (EvGetOrCreateBuildWithProject name number (GetProject W (Some sampleBuild)) None)
             (eventsOf run (scanCommand false) [])
       /\ In (EvAddGradleModule None) (eventsOf run (scanCommand false) [])
       /\ In (EvCreateBuildInfoProps file (overrides W withDeployer 8 true) (cfg', inl props0))
             (eventsOf run (scanCommand false) [])
       /\ In (EvGetJfrogDependenciesPath (inl deps)) (eventsOf run (scanCommand false) [])
       /\ usePluginFlag details = Viper.GetBool usePlugin cfg'
       /\ props details
          = (if negb (String.eqb file "")
             then <[DeployableArtifacts W :=
                      Viper.Sprint (Viper.Get (DeployableArtifacts W) cfg')]> props0
             else props0)
       /\ localPath details = Join W deps "gradle".
Proof.
  intros W file run details.
  apply (extractor_gets_the_run_configuration W withDeployer ["clean"; "artifactoryPublish"]
           file (Some sampleBuild) 8 true (scanCommand false) [] details None).
  vm_compute. do 6 right. left. reflexivity.
Defined.

(** ** The result of the command *)

(** X16.  The result a command holds after [Run] is the one the
    unmarshalling of this run returned, also when the scan or an upload
    failed afterwards; a run that unmarshalled nothing, or whose
    unmarshalling failed, leaves the result the command had. *)
Theorem Run_result_is_the_unmarshalled_one (W : Collaborators) (gc : GradleCommand)
    (h : history) :
  (forall file cfgPath late res,
      In (EvUnmarshalDeployableArtifacts file cfgPath late (inl res)) (eventsOf (Run W) gc h) ->
      result (commandAfter (Run W) gc h) = Some res)
  /\ ((forall file cfgPath late res,
         ~ In (EvUnmarshalDeployableArtifacts file cfgPath late (inl res))
              (eventsOf (Run W) gc h)) ->
      result (commandAfter (Run W) gc h) = result gc).
Proof.
  pose proof (init_settings W gc h) as (_ & Hres & _). revert Hres.
  run_phases; intros Hres.
  all: try (apply conditionalUpload_gate_events in Hgate as [Hev4 Hres4]; cbn in Hres4).
  all: split;
    [intros file cfgPath late res0; rewrite ?in_app_iff; intros Hin;
     repeat match goal with H : _ \/ _ |- _ => destruct H end; in_cases; not_of_phase;
     subst; cbn; congruence
    | intros Hnone; cbn; try congruence].
  all: exfalso; eapply Hnone; rewrite ?in_app_iff; cbn [In]; eauto 8.
Qed.

Lemma Run_result_is_the_unmarshalled_one_witness :
  let W := sampleWorld (inl withDeployer) (Some threeJars, Some twoPoms, None)
             None (fun _ => Some uploadFailed) in
  outcomeOf (Run W) (scanCommand false) [] = Err uploadFailed
  /\ result (commandAfter (Run W) (scanCommand false) []) = Some sampleResult.
Proof.
  intros W. split; [vm_compute; reflexivity |].
  apply (proj1 (Run_result_is_the_unmarshalled_one W (scanCommand false) [])
           "/tmp/jfrog.cli.temp.-1" ".jfrog/projects/gradle.yaml" true sampleResult).
  vm_compute. do 10 right. left. reflexivity.
Defined.

(** ** The Gradle init script *)

Lemma string_length_app (s t : string) :
  String.length (s +:+ t) = (String.length s + String.length t)%nat.
Proof. induction s as [| c s IH]; simpl; [reflexivity | by f_equal]. Qed.

Lemma substring_app_prefix (s t : string) : substring 0 (String.length s) (s +:+ t) = s.
Proof.
  induction s as [| c s IH]; simpl; [by destruct t | by f_equal].
Qed.

Lemma substring_app_suffix (s t : string) :
  substring (String.length s) (String.length t) (s +:+ t) = t.
Proof.
  induction s as [| c s IH]; simpl; [| exact IH].
  induction t as [| c t IH]; simpl; [reflexivity | by f_equal].
Qed.

Lemma substring_all (s : string) : substring 0 (String.length s) s = s.
Proof. induction s as [| c s IH]; simpl; [reflexivity | by f_equal]. Qed.

Lemma substring_split (n : nat) (s : string) :
  (n <= String.length s)%nat ->
  substring 0 n s +:+ substring n (String.length s - n) s = s.
Proof.
  revert n. induction s as [| c s IH]; intros [| n] Hle; simpl in *;
    try reflexivity; try lia.
  - change (String c (substring 0 (String.length s) s) = String c s).
    f_equal. apply substring_all.
  - change (String c (substring 0 n s +:+ substring n (String.length s - n) s)
            = String c s).
    f_equal. apply IH. lia.
Qed.

(** A string has a suffix exactly when it is some string followed by it. *)
Lemma HasSuffix_true (s suffix : string) :
  HasSuffix s suffix = true <-> exists p, s = p +:+ suffix.
Proof.
  unfold HasSuffix. rewrite andb_true_iff, Nat.leb_le, String.eqb_eq. split.
  - intros [Hle Hsub]. exists (substring 0 (String.length s - String.length suffix) s).
    pose proof (substring_split (String.length s - String.length suffix) s) as Hsplit.
    replace (String.length s - (String.length s - String.length suffix))%nat
      with (String.length suffix) in Hsplit by lia.
    rewrite Hsub in Hsplit. symmetry. apply Hsplit. lia.
  - intros [p ->]. rewrite string_length_app. split; [lia |].
    replace (String.length p + String.length suffix - String.length suffix)%nat
      with (String.length p) by lia.
    apply substring_app_suffix.
Qed.

Lemma TrimSuffix_app (p suffix : string) : TrimSuffix (p +:+ suffix) suffix = p.
Proof.
  unfold TrimSuffix.
  assert (Hs : HasSuffix (p +:+ suffix) suffix = true) by (apply HasSuffix_true; eauto).
  rewrite Hs, string_length_app.
  replace (String.length p + String.length suffix - String.length suffix)%nat
    with (String.length p) by lia.
  apply substring_app_prefix.
Qed.

Lemma TrimSuffix_without (s suffix : string) :
  HasSuffix s suffix = false -> TrimSuffix s suffix = s.
Proof. intros Hs. unfold TrimSuffix. by rewrite Hs. Qed.

(** X17.  [GenerateInitScript] removes one trailing slash from the URL before
    it executes the template: a URL written with a trailing slash gives the
    script, or the error, of the URL written without it. *)
Theorem GenerateInitScript_ignores_trailing_slash (SW : ScriptWorld)
    (url repo user token : string) :
  HasSuffix url "/" = false ->
  GenerateInitScript SW
    {| ArtifactoryURL := url +:+ "/"; GradleRepoName := repo;
       ArtifactoryUsername := user; ArtifactoryAccessToken := token |}
  = GenerateInitScript SW
      {| ArtifactoryURL := url; GradleRepoName := repo;
         ArtifactoryUsername := user; ArtifactoryAccessToken := token |}.
Proof.
  intros Hplain. unfold GenerateInitScript.
  destruct (templateParse SW (gradleInitScript SW)) as [tmpl | e]; [| reflexivity].
  cbn [ArtifactoryURL GradleRepoName ArtifactoryUsername ArtifactoryAccessToken].
  by rewrite TrimSuffix_app, (TrimSuffix_without url "/" Hplain).
Qed.

Lemma GenerateInitScript_ignores_trailing_slash_witness :
  let SW := sampleScriptWorld "" (fun _ => "ci") (fun _ => "secret") (fun _ => "") None None in
  GenerateInitScript SW
    {| ArtifactoryURL := "https://acme.jfrog.io/artifactory" +:+ "/";
       GradleRepoName := "api/gradle/libs"; ArtifactoryUsername := "ci";
       ArtifactoryAccessToken := "secret" |}
  = GenerateInitScript SW
      {| ArtifactoryURL := "https://acme.jfrog.io/artifactory";
         GradleRepoName := "api/gradle/libs"; ArtifactoryUsername := "ci";
         ArtifactoryAccessToken := "secret" |}.
Proof.
  intros SW.
  apply (GenerateInitScript_ignores_trailing_slash SW
           "https://acme.jfrog.io/artifactory" "api/gradle/libs" "ci" "secret").
  vm_compute. reflexivity.
Defined.

(** X18.  [CreateGradleBuildFile] trims the URL itself and [GenerateInitScript]
    trims it again, so up to two trailing slashes of the Artifactory URL make
    no difference; nor does the project key, which is not used. *)
Theorem CreateGradleBuildFile_ignores_two_trailing_slashes (SW : ScriptWorld)
    (repo : string) (sd sd' : config.ServerDetails) (projectKey projectKey' : string)
    (h : list fsEvent) (url : string) :
  HasSuffix url "/" = false ->
  GetArtifactoryUrl SW sd = url ->
  GetArtifactoryUrl SW sd' = url +:+ "/" \/ GetArtifactoryUrl SW sd' = (url +:+ "/") +:+ "/" ->
  GetUser SW sd' = GetUser SW sd ->
  GetPassword SW sd' = GetPassword SW sd ->
  GetAccessToken SW sd' = GetAccessToken SW sd ->
  CreateGradleBuildFile SW repo sd' projectKey' h = CreateGradleBuildFile SW repo sd projectKey h.
Proof.
  intros Hplain Hurl Hurl' Huser Hpassword Htoken.
  unfold CreateGradleBuildFile, GenerateInitScript.
  rewrite Huser, Hpassword, Htoken, Hurl.
  cbn [ArtifactoryURL GradleRepoName ArtifactoryUsername ArtifactoryAccessToken].
  assert (Hsame : TrimSuffix (TrimSuffix (GetArtifactoryUrl SW sd') "/") "/"
                  = TrimSuffix (TrimSuffix url "/") "/").
  { destruct Hurl' as [-> | ->]; rewrite !TrimSuffix_app;
      by rewrite ?(TrimSuffix_without url "/" Hplain). }
  by rewrite Hsame.
Qed.

Lemma CreateGradleBuildFile_ignores_two_trailing_slashes_witness :
  let SW := sampleScriptWorld "/opt/gradle" (fun _ => "ci") (fun _ => "secret")
              (fun _ => "") None None in
  CreateGradleBuildFile SW "libs" (serverAt "art" "https://acme.jfrog.io/artifactory//")
    "other" []
  = CreateGradleBuildFile SW "libs" (serverAt "art" "https://acme.jfrog.io/artifactory")
      "proj" [].
Proof.
  intros SW.
  apply (CreateGradleBuildFile_ignores_two_trailing_slashes SW "libs"
           (serverAt "art" "https://acme.jfrog.io/artifactory")
           (serverAt "art" "https://acme.jfrog.io/artifactory//")
           "proj" "other" [] "https://acme.jfrog.io/artifactory").
  - vm_compute. reflexivity.
  - reflexivity.
  - right. reflexivity.
  - reflexivity.
  - reflexivity.
  - reflexivity.
Defined.

(** X19.  When the server details carry an access token, the script
    [CreateGradleBuildFile] writes is the template executed with that token
    as the secret and with the user name of the details, or "token" when
    that is empty; the password plays no part, and an empty user name gives
    the same run as the user "token". *)
Theorem CreateGradleBuildFile_token_replaces_password (SW : ScriptWorld)
    (repo : string) (sd sd' : config.ServerDetails) (projectKey : string)
    (h : list fsEvent) :
  GetAccessToken SW sd ≠ "" ->
  GetAccessToken SW sd' = GetAccessToken SW sd ->
  GetArtifactoryUrl SW sd' = GetArtifactoryUrl SW sd ->
  GetUser SW sd' = GetUser SW sd
  \/ (GetUser SW sd' = "" /\ GetUser SW sd = "token") ->
  CreateGradleBuildFile SW repo sd' projectKey h = CreateGradleBuildFile SW repo sd projectKey h
  /\ forall tmpl path content perm err,
       templateParse SW (gradleInitScript SW) = inl tmpl ->
       In (FsWriteFile path content perm err)
          (snd (CreateGradleBuildFile SW repo sd projectKey h)) ->
       tmpl {| ArtifactoryURL :=
                 TrimSuffix (TrimSuffix (GetArtifactoryUrl SW sd) "/") "/";
               GradleRepoName := "api/gradle/" +:+ repo;
               ArtifactoryUsername :=
                 if String.eqb (GetUser SW sd) "" then "token" else GetUser SW sd;
               ArtifactoryAccessToken := GetAccessToken SW sd |}
       = inl content.
Proof.
  intros Htoken Hsame Hurl Huser. split.
  - unfold CreateGradleBuildFile.
    rewrite Hsame, Hurl, (proj2 (String.eqb_neq _ _) Htoken). cbn [negb].
    destruct Huser as [-> | [-> ->]]; reflexivity.
  - intros tmpl path content perm err Hparse.
    unfold CreateGradleBuildFile, GenerateInitScript.
    rewrite Hparse, (proj2 (String.eqb_neq _ _) Htoken). cbn [negb].
    cbn [ArtifactoryURL GradleRepoName ArtifactoryUsername ArtifactoryAccessToken].
    destruct (tmpl _) as [script | e]; cbn [snd]; [| intros []].
    unfold WriteInitScript.
    destruct (MkdirAll SW h _ 493) as [e | ]; cbn [snd].
    + intros [Hin | []]. discriminate Hin.
    + destruct (WriteFile SW _ _ script 420) as [e | ]; cbn [snd];
        intros [Hin | [Hin | []]]; try discriminate Hin;
        by injection Hin as _ <- _ _.
Qed.

Lemma CreateGradleBuildFile_token_replaces_password_witness :
  let SW := sampleScriptWorld "/opt/gradle"
              (fun sd => if String.eqb (config.ServerId sd) "anonymous" then "" else "token")
              config.ServerId (fun _ => "eyJ2ZXIiOiIyIn0") None None in
  CreateGradleBuildFile SW "libs" (serverAt "anonymous" "https://acme.jfrog.io/artifactory")
    "proj" []
  = CreateGradleBuildFile SW "libs" (serverAt "named" "https://acme.jfrog.io/artifactory")
      "proj" []
  /\ printingTemplate
       {| ArtifactoryURL := "https://acme.jfrog.io/artifactory";
          GradleRepoName := "api/gradle/libs";
          ArtifactoryUsername := "token";
          ArtifactoryAccessToken := "eyJ2ZXIiOiIyIn0" |}
     = inl "https://acme.jfrog.io/artifactory/api/gradle/libs token:eyJ2ZXIiOiIyIn0".
Proof.
  intros SW.
  assert (Hwritten :
            In (FsWriteFile "/opt/gradle/init.d/jfrog.init.gradle"
                  "https://acme.jfrog.io/artifactory/api/gradle/libs token:eyJ2ZXIiOiIyIn0"
                  420 None)
               (snd (CreateGradleBuildFile SW "libs"
                       (serverAt "named" "https://acme.jfrog.io/artifactory") "proj" [])))
    by (vm_compute; right; left; reflexivity).
  destruct (CreateGradleBuildFile_token_replaces_password SW "libs"
              (serverAt "named" "https://acme.jfrog.io/artifactory")
              (serverAt "anonymous" "https://acme.jfrog.io/artifactory") "proj" [])
    as [Hrun Hscript].
  - discriminate.
  - reflexivity.
  - reflexivity.
  - right. split; reflexivity.
  - exact (conj Hrun (Hscript printingTemplate _ _ _ _ eq_refl Hwritten)).
Defined.

(** X20.  [WriteInitScript] writes at most once, and only after it created
    the [init.d] directory of the Gradle home: what it writes is the script
    it was given, with mode 0644, to the file [jfrog.init.gradle] of that
    directory.  It returns nil exactly when the write was made and
    succeeded. *)
Theorem WriteInitScript_writes_after_mkdir (SW : ScriptWorld) (initScript : string)
    (h : list fsEvent) :
  let dir := filepathJoin SW [gradleHomeAt SW h; "init.d"] in
  (forall path content perm err,
      In (FsWriteFile path content perm err) (snd (WriteInitScript SW initScript h)) ->
      snd (WriteInitScript SW initScript h)
      = [FsMkdirAll dir 493 None; FsWriteFile path content perm err]
      /\ path = filepathJoin SW [dir; InitScriptName]
      /\ content = initScript /\ perm = 420%N)
  /\ (fst (WriteInitScript SW initScript h) = None <->
      In (FsWriteFile (filepathJoin SW [dir; InitScriptName]) initScript 420 None)
         (snd (WriteInitScript SW initScript h))).
Proof.
  intros dir. unfold WriteInitScript. fold dir.
  destruct (MkdirAll SW h dir 493) as [e | ] eqn:Hmk; cbn [fst snd].
  - split.
    + intros path content perm err [Hin | []]. discriminate Hin.
    + split; [discriminate |]. intros [Hin | []]. discriminate Hin.
  - destruct (WriteFile SW _ _ initScript 420) as [e | ] eqn:Hwr; cbn [fst snd]; split.
    + intros path content perm err [Hin | [Hin | []]]; [discriminate Hin |].
      injection Hin as <- <- <- <-. auto.
    + split; [discriminate |].
      intros [Hin | [Hin | []]]; discriminate Hin.
    + intros path content perm err [Hin | [Hin | []]]; [discriminate Hin |].
      injection Hin as <- <- <- <-. auto.
    + split; [| reflexivity]. intros _. right. left. reflexivity.
Qed.

Lemma WriteInitScript_writes_after_mkdir_witness :
  let SW := sampleScriptWorld "/opt/gradle" (fun _ => "ci") (fun _ => "secret") (fun _ => "")
              None None in
  snd (WriteInitScript SW "script" [])
  = [FsMkdirAll (filepathJoin SW [gradleHomeAt SW []; "init.d"]) 493 None;
     FsWriteFile "/opt/gradle/init.d/jfrog.init.gradle" "script" 420 None]
  /\ "/opt/gradle/init.d/jfrog.init.gradle"
     = filepathJoin SW [filepathJoin SW [gradleHomeAt SW []; "init.d"]; InitScriptName]
  /\ "script" = "script" /\ 420%N = 420%N.
Proof.
  intros SW.
  apply (proj1 (WriteInitScript_writes_after_mkdir SW "script" [])
           "/opt/gradle/init.d/jfrog.init.gradle" "script" 420%N None).
  vm_compute. right. left. reflexivity.
Defined.

(** X21.  Let the Gradle home read the same before and after the write, and
    let joining a joined path with one more element be joining the three, as
    [filepath.Join] does.  Then the path [CreateGradleBuildFile] returns is
    the path it wrote the script to, successfully, after creating the
    directory. *)
Theorem CreateGradleBuildFile_returns_written_path (SW : ScriptWorld) (repo : string)
    (sd : config.ServerDetails) (projectKey : string) (h : list fsEvent) (path : string) :
  (forall h', gradleHomeAt SW h' = gradleHomeAt SW h) ->
  (forall a b c, filepathJoin SW [filepathJoin SW [a; b]; c] = filepathJoin SW [a; b; c]) ->
  fst (CreateGradleBuildFile SW repo sd projectKey h) = inl path ->
  exists script,
    snd (CreateGradleBuildFile SW repo sd projectKey h)
    = [FsMkdirAll (filepathJoin SW [gradleHomeAt SW h; "init.d"]) 493 None;
       FsWriteFile path script 420 None].
Proof.
  intros Hstable Hjoin. unfold CreateGradleBuildFile.
  destruct (GenerateInitScript SW _) as [script | e]; [| discriminate].
  unfold WriteInitScript.
  destruct (MkdirAll SW h _ 493) as [e | ]; [discriminate |].
  destruct (WriteFile SW _ _ script 420) as [e | ]; [discriminate |].
  cbn [fst snd]. intros Hpath. injection Hpath as <-.
  exists script. by rewrite (Hstable (h ++ _)), Hjoin.
Qed.

Lemma string_app_assoc (s t u : string) : (s +:+ t) +:+ u = s +:+ t +:+ u.
Proof.
  induction s as [| c s IH]; [reflexivity |].
  change (String c ((s +:+ t) +:+ u) = String c (s +:+ t +:+ u)). by f_equal.
Qed.

Lemma joinSlash_nested (a b c : string) :
  joinSlash [joinSlash [a; b]; c] = joinSlash [a; b; c].
Proof. unfold joinSlash. by rewrite !string_app_assoc. Qed.

Lemma CreateGradleBuildFile_returns_written_path_witness :
  let SW := sampleScriptWorld "" (fun _ => "ci") (fun _ => "secret") (fun _ => "") None None in
  exists script,
    snd (CreateGradleBuildFile SW "libs" (serverAt "art" "https://acme.jfrog.io/artifactory/")
           "proj" [])
    = [FsMkdirAll "/home/user/.gradle/init.d" 493 None;
       FsWriteFile "/home/user/.gradle/init.d/jfrog.init.gradle" script 420 None].
Proof.
  intros SW.
  apply (CreateGradleBuildFile_returns_written_path SW "libs"
           (serverAt "art" "https://acme.jfrog.io/artifactory/") "proj" []
           "/home/user/.gradle/init.d/jfrog.init.gradle").
  - intros h'. reflexivity.
  - intros a b c. apply joinSlash_nested.
  - vm_compute. reflexivity.
Defined.

(** X22.  When [CreateGradleBuildFile] returns an error, no write of the
    script succeeded; and when the error comes from the template, the file
    system was not touched at all. *)
Theorem CreateGradleBuildFile_error_writes_nothing (SW : ScriptWorld) (repo : string)
    (sd : config.ServerDetails) (projectKey : string) (h : list fsEvent) (e : error) :
  fst (CreateGradleBuildFile SW repo sd projectKey h) = inr e ->
  (forall path content perm,
      ~ In (FsWriteFile path content perm None)
           (snd (CreateGradleBuildFile SW repo sd projectKey h)))
  /\ ((forall tmpl, templateParse SW (gradleInitScript SW) ≠ inl tmpl) ->
      snd (CreateGradleBuildFile SW repo sd projectKey h) = []).
Proof.
  unfold CreateGradleBuildFile, GenerateInitScript.
  destruct (templateParse SW (gradleInitScript SW)) as [tmpl | e0].
  - destruct (tmpl _) as [script | e1]; cbn [fst snd].
    + unfold WriteInitScript.
      destruct (MkdirAll SW h _ 493) as [e1 | ]; cbn [fst snd].
      * intros _. split; [| intros Hno; by destruct (Hno tmpl)].
        intros path content perm [Hin | []]. discriminate Hin.
      * destruct (WriteFile SW _ _ script 420) as [e1 | ]; cbn [fst snd];
          [| discriminate].
        intros _. split; [| intros Hno; by destruct (Hno tmpl)].
        intros path content perm [Hin | [Hin | []]]; discriminate Hin.
    + intros _. split; [intros path content perm [] | reflexivity].
  - cbn [fst snd]. intros _. split; [intros path content perm [] | reflexivity].
Qed.

Lemma CreateGradleBuildFile_error_writes_nothing_witness :
  let SW := sampleScriptWorld "/opt/gradle" (fun _ => "ci") (fun _ => "secret") (fun _ => "")
              (Some (MkError "mkdir /opt/gradle/init.d: permission denied")) None in
  let run := CreateGradleBuildFile SW "libs"
               (serverAt "art" "https://acme.jfrog.io/artifactory") "proj" [] in
  fst run
  = inr (Errorf "failed to create Gradle init.d directory: "
           (MkError "mkdir /opt/gradle/init.d: permission denied"))
  /\ forall path content perm, ~ In (FsWriteFile path content perm None) (snd run).
Proof.
  intros SW run.
  assert (Hfailed : fst run
                    = inr (Errorf "failed to create Gradle init.d directory: "
                             (MkError "mkdir /opt/gradle/init.d: permission denied")))
    by (vm_compute; reflexivity).
  exact (conj Hfailed
           (proj1 (CreateGradleBuildFile_error_writes_nothing SW "libs"
                     (serverAt "art" "https://acme.jfrog.io/artifactory") "proj" [] _
                     Hfailed))).
Defined.
